(** * Canvas assignment assistant: the rendering pipeline, the date helpers,
      the assignment search and the handlers of [src/index.ts], embedded
      shallowly and checked against the specification.

    Conventions of the embedding.
    - A JavaScript string is the list of its UTF-16 code units ([jsstring]);
      regular expressions without the [u] flag, [trim], [split], [includes]
      and [length] all work on code units, so the model is exact for every
      string.
    - [string | null] is [option jsstring]; JavaScript truthiness of such a
      value ([if (x)], [x || d]) is [truthy]: present and not empty.
    - A number holding an id, a count or a number of points is an integer [Z].
    - A [Date] is its time value: [NaN] or a number of milliseconds since the
      epoch.  The date arithmetic is that of ECMAScript (MakeDay, MakeTime,
      MakeDate, UTC, LocalTime, TimeClip).
    - What the program asks of its platform and cannot be read in the
      repository is a field of the class [Platform]: the HTML parser (jsdom),
      Unicode lower-casing, the local time zone, [Date.parse], the locale
      formatters and URL encoding.
    - A handler runs in the monad [Js]: it writes lines to the diagnostic log
      ([console.error]) and either returns or throws. *)

From Stdlib Require Import String Ascii DecimalString.
From Stdlib Require Import List ZArith NArith Lia Bool.
From Stdlib Require Import Sorting.Sorted Permutation.
Import ListNotations.

Set Implicit Arguments.
Set Warnings "-register-all".

(* ===================================================================== *)
(** * Strings                                                             *)
(* ===================================================================== *)

Definition jsstring := list N.

(** A literal: the code units of an ASCII string. *)
Definition js (s : string) : jsstring :=
  map N_of_ascii (list_ascii_of_string s).

Definition LF : N := 10.
Definition QUOTE : N := 34.
Definition DOLLAR : N := 36.
Definition BACKSLASH : N := 92.
Definition BACKTICK : N := 96.

Definition jsstring_eqb (a b : jsstring) : bool :=
  if list_eq_dec N.eq_dec a b then true else false.

(** [!s] is false, [s || d] keeps [s]. *)
Definition truthy (s : option jsstring) : bool :=
  match s with
  | Some (_ :: _) => true
  | _ => false
  end.

(** [s || d] for a nullable string. *)
Definition orElse (s : option jsstring) (d : jsstring) : jsstring :=
  match s with
  | Some (c :: r) => c :: r
  | _ => d
  end.

(** [\d] *)
Definition isDigit (c : N) : bool := (48 <=? c)%N && (c <=? 57)%N.

(** [\s], which is also what [trim] strips: WhiteSpace and LineTerminator. *)
Definition isWhiteSpace (c : N) : bool :=
  ((9 <=? c) && (c <=? 13) || (c =? 32) || (c =? 160) || (c =? 5760)
   || (8192 <=? c) && (c <=? 8202) || (c =? 8232) || (c =? 8233)
   || (c =? 8239) || (c =? 8287) || (c =? 12288) || (c =? 65279))%N.

Fixpoint dropWhile (p : N -> bool) (s : jsstring) : jsstring :=
  match s with
  | [] => []
  | c :: r => if p c then dropWhile p r else s
  end.

Definition trimStart (s : jsstring) : jsstring := dropWhile isWhiteSpace s.
Definition trimEnd (s : jsstring) : jsstring := rev (dropWhile isWhiteSpace (rev s)).

(** [s.trim()] *)
Definition trim (s : jsstring) : jsstring := trimEnd (trimStart s).

(** [arr.join(sep)] *)
Fixpoint join (sep : jsstring) (l : list jsstring) : jsstring :=
  match l with
  | [] => []
  | [x] => x
  | x :: r => x ++ sep ++ join sep r
  end.

Fixpoint startsWith (s prefix : jsstring) {struct prefix} : bool :=
  match prefix, s with
  | [], _ => true
  | p :: ps, c :: r => (c =? p)%N && startsWith r ps
  | _ :: _, [] => false
  end.

(** [s.includes(t)] *)
Fixpoint includes (s t : jsstring) : bool :=
  startsWith s t ||
  match s with
  | [] => false
  | _ :: r => includes r t
  end.

(** [s.split(/\s+/)]: the pieces between the maximal runs of white space; a
    run at either end leaves an empty piece there, and the empty string
    splits into one empty piece.  [inRun] says that the previous code unit
    was white space, [cur] holds the piece being read, reversed. *)
Fixpoint splitWs (inRun : bool) (cur : jsstring) (s : jsstring) : list jsstring :=
  match s with
  | [] => [rev cur]
  | c :: r =>
      if isWhiteSpace c
      then if inRun then splitWs true cur r else rev cur :: splitWs true [] r
      else splitWs false (c :: cur) r
  end.

Definition splitWhitespace (s : jsstring) : list jsstring := splitWs false [] s.

Definition startsWithDigit (s : jsstring) : bool :=
  match s with
  | c :: _ => isDigit c
  | [] => false
  end.

(** [s.replace(/\$(\d+)/g, '\\$$$1')].  A match is a dollar sign and the
    digits after it, as many as there are; the replacement pattern
    [\$$$1] reads: a backslash, a dollar sign ([$$]), the digits ([$1]).
    The digits are copied as they are and none of them can start another
    match, so the scan writes the backslash and goes on behind the dollar. *)
Fixpoint escapeDollar (s : jsstring) : jsstring :=
  match s with
  | [] => []
  | c :: r =>
      if (c =? DOLLAR)%N && startsWithDigit r
      then BACKSLASH :: DOLLAR :: escapeDollar r
      else c :: escapeDollar r
  end.

(** [s.replace(/\n\n\n+/g, '\n\n')]: of a run of three or more line feeds,
    two are kept.  [run] counts the line feeds just written. *)
Fixpoint collapseFrom (run : nat) (s : jsstring) : jsstring :=
  match s with
  | [] => []
  | c :: r =>
      if (c =? LF)%N
      then match run with
           | S (S _) => collapseFrom run r
           | _ => LF :: collapseFrom (S run) r
           end
      else c :: collapseFrom 0 r
  end.

Definition collapseNewlines (s : jsstring) : jsstring := collapseFrom 0 s.

(** [`${n}`] for an integer. *)
Definition showZ (n : Z) : jsstring := js (NilZero.string_of_int (Z.to_int n)).

(** [Number(s)] for a string of decimal digits. *)
Definition digitValue (c : N) : Z := Z.of_N c - 48.
Definition Number (s : jsstring) : Z :=
  fold_left (fun acc c => 10 * acc + digitValue c)%Z s 0%Z.

(** [s.split('-')] *)
Fixpoint splitOn (sep : N) (cur : jsstring) (s : jsstring) : list jsstring :=
  match s with
  | [] => [rev cur]
  | c :: r => if (c =? sep)%N then rev cur :: splitOn sep [] r
              else splitOn sep (c :: cur) r
  end.

(** [s.replace(/_/g, ' ')] *)
Definition underscoresToSpaces (s : jsstring) : jsstring :=
  map (fun c => if (c =? 95)%N then 32%N else c) s.

(* ===================================================================== *)
(** * The document tree                                                   *)
(* ===================================================================== *)

(** A node of a parsed document.  [tag] is [element.tagName.toLowerCase()];
    [Comment] stands for every node that is neither text nor element. *)
Inductive Node : Type :=
| Text (data : jsstring)
| Comment (data : jsstring)
| Element (tag : jsstring) (attributes : list (jsstring * jsstring))
          (childNodes : list Node).

(** [new JSDOM(html).window.document]: the child nodes of its body. *)
Record Document : Type := { body : list Node }.

Definition isElement (n : Node) : bool :=
  match n with Element _ _ _ => true | _ => false end.

(** [element.getAttribute(name)] *)
Fixpoint getAttribute (attrs : list (jsstring * jsstring)) (name : jsstring)
  : option jsstring :=
  match attrs with
  | [] => None
  | (k, v) :: r => if jsstring_eqb k name then Some v else getAttribute r name
  end.

(** [node.textContent]: the data of a text node; for an element, the data of
    the text nodes below it, in tree order. *)
Fixpoint descendantText (n : Node) : jsstring :=
  match n with
  | Text d => d
  | Comment _ => []
  | Element _ _ cs => flat_map descendantText cs
  end.

Definition textContent (n : Node) : jsstring :=
  match n with
  | Text d => d
  | Comment d => d
  | Element _ _ cs => flat_map descendantText cs
  end.

(** [document.body.textContent] *)
Definition bodyTextContent (d : Document) : jsstring :=
  flat_map descendantText (body d).

(** [Array.from(element.children).map((li, index) => f(index, li))], the
    index counted from [i]: [children] are the child nodes that are
    elements. *)
Definition mapChildren (B : Type) (f : nat -> Node -> B)
  : nat -> list Node -> list B :=
  fix go (i : nat) (cs : list Node) : list B :=
    match cs with
    | [] => []
    | c :: r => if isElement c then f i c :: go (S i) r else go i r
    end.

(** The white space of the HTML parser. *)
Definition isHtmlSpace (c : N) : bool :=
  ((c =? 9) || (c =? 10) || (c =? 12) || (c =? 13) || (c =? 32))%N.

(** The document the HTML parser builds for a text without markup: no tag,
    no character reference, no carriage return and no NUL.  The white space
    before the first other character is dropped (it comes before the body is
    opened); the rest is one text node, the only child of the body. *)
Definition textBody (html : jsstring) : Document :=
  match dropWhile isHtmlSpace html with
  | [] => {| body := [] |}
  | t => {| body := [Text t] |}
  end.

(* ===================================================================== *)
(** * The HTML rendering pipeline, on the parsed document                 *)
(* ===================================================================== *)

Definition tagIs (tag : jsstring) (name : string) : bool :=
  jsstring_eqb tag (js name).

Definition attributesOf (n : Node) : list (jsstring * jsstring) :=
  match n with
  | Element _ attrs _ => attrs
  | _ => []
  end.

(** [getTextContent] of [convertHtmlToMarkdown] *)
Definition getTextContent (element : Node) : jsstring :=
  escapeDollar (textContent element).

(** [processNode] of [convertHtmlToMarkdown] *)
Fixpoint processNode (node : Node) : jsstring :=
  match node with
  | Text d => escapeDollar d
  | Comment _ => []
  | Element tag attrs childNodes =>
      if tagIs tag "h1" then js "# " ++ getTextContent node ++ [LF; LF]
      else if tagIs tag "h2" then js "## " ++ getTextContent node ++ [LF; LF]
      else if tagIs tag "h3" then js "### " ++ getTextContent node ++ [LF; LF]
      else if tagIs tag "strong" || tagIs tag "b"
        then js "**" ++ getTextContent node ++ js "**"
      else if tagIs tag "em" || tagIs tag "i"
        then js "*" ++ getTextContent node ++ js "*"
      else if tagIs tag "ul"
        then join [LF] (mapChildren (fun _ li => js "- " ++ processNode li) 0 childNodes)
             ++ [LF; LF]
      else if tagIs tag "ol"
        then join [LF] (mapChildren
                          (fun index li =>
                             showZ (Z.of_nat index + 1) ++ js ". " ++ processNode li)
                          0 childNodes)
             ++ [LF; LF]
      else if tagIs tag "li" then trim (join [] (map processNode childNodes))
      else if tagIs tag "p" then join [] (map processNode childNodes) ++ [LF; LF]
      else if tagIs tag "br" then [LF]
      else if tagIs tag "a" then
        let href := getAttribute attrs (js "href") in
        let text := getTextContent node in
        if truthy href then js "[" ++ text ++ js "](" ++ orElse href [] ++ js ")"
        else text
      else join [] (map processNode childNodes)
  end.

(** The body of [convertHtmlToMarkdown] behind [new JSDOM(html)]: the
    transformed nodes joined and trimmed, then the runs of line feeds
    collapsed. *)
Definition markdownOf (document : Document) : jsstring :=
  let result := trim (join [] (map processNode (body document))) in
  collapseNewlines result.

(** The body of [htmlToPlainText] behind [new JSDOM(html)]. *)
Definition plainTextOf (document : Document) : jsstring :=
  escapeDollar (bodyTextContent document).

(** [querySelectorAll('a')]: the anchors, in document order. *)
Fixpoint anchorsOf (n : Node) : list Node :=
  match n with
  | Element tag _ cs =>
      (if tagIs tag "a" then [n] else []) ++ flat_map anchorsOf cs
  | _ => []
  end.

Record Link : Type := { text : jsstring; href : jsstring }.

(** The body of [extractLinks] behind [new JSDOM(html)]. *)
Definition linksOf (document : Document) : list Link :=
  map (fun link =>
         {| text := textContent link;
            href := orElse (getAttribute (attributesOf link) (js "href")) [] |})
      (flat_map anchorsOf (body document)).

(* ===================================================================== *)
(** * Dates: the ECMAScript date arithmetic                               *)
(* ===================================================================== *)

Local Open Scope Z_scope.

(** The time value of a [Date]: [NaN] for an invalid date. *)
Inductive timevalue : Type :=
| NaN
| Ms (t : Z).

Record Date : Type := { getTime : timevalue }.

Definition msPerSecond : Z := 1000.
Definition msPerMinute : Z := 60000.
Definition msPerHour : Z := 3600000.
Definition msPerDay : Z := 86400000.

Definition Day (t : Z) : Z := t / msPerDay.

Definition DaysInYear (y : Z) : Z :=
  if negb (y mod 4 =? 0) then 365
  else if negb (y mod 100 =? 0) then 366
  else if negb (y mod 400 =? 0) then 365
  else 366.

Definition DayFromYear (y : Z) : Z :=
  365 * (y - 1970) + (y - 1969) / 4 - (y - 1901) / 100 + (y - 1601) / 400.

(** The days of the year before month [mn] (0 = January). *)
Definition daysBeforeMonth (leap : Z) (mn : Z) : Z :=
  match mn with
  | 0 => 0
  | 1 => 31
  | 2 => 59 + leap
  | 3 => 90 + leap
  | 4 => 120 + leap
  | 5 => 151 + leap
  | 6 => 181 + leap
  | 7 => 212 + leap
  | 8 => 243 + leap
  | 9 => 273 + leap
  | 10 => 304 + leap
  | _ => 334 + leap
  end.

Definition MakeTime (hour min sec ms : Z) : Z :=
  hour * msPerHour + min * msPerMinute + sec * msPerSecond + ms.

(** MakeDay: months beyond 0..11 carry into the year, and the day of the
    month is added as a number of days, whatever its size. *)
Definition MakeDay (year month date : Z) : Z :=
  let ym := year + month / 12 in
  let mn := month mod 12 in
  DayFromYear ym + daysBeforeMonth (DaysInYear ym - 365) mn + date - 1.

Definition MakeDate (day time : Z) : Z := day * msPerDay + time.

Definition TimeClip (t : Z) : timevalue :=
  if Z.abs t >? 8640000000000000 then NaN else Ms t.

(** [a > b] and [a < b] on time values: false when either is [NaN]. *)
Definition tv_gtb (a b : timevalue) : bool :=
  match a, b with
  | Ms x, Ms y => x >? y
  | _, _ => false
  end.

Definition tv_ltb (a b : timevalue) : bool :=
  match a, b with
  | Ms x, Ms y => x <? y
  | _, _ => false
  end.

Definition tv_isNaN (a : timevalue) : bool :=
  match a with NaN => true | Ms _ => false end.

(** The options object of the two [toLocale...] calls of [formatDate], and
    the call without options of the resource handler. *)
Inductive LocaleFormat : Type :=
| FullFormat
| DateOnlyFormat
| DefaultFormat.

(* ===================================================================== *)
(** * The platform                                                        *)
(* ===================================================================== *)

Class Platform : Type := {
  (** [new JSDOM(html)] *)
  JSDOM : jsstring -> Document;
  (** [String.prototype.toLowerCase]; the empty string has no letter. *)
  toLowerCase : jsstring -> jsstring;
  toLowerCase_empty : toLowerCase [] = [];
  (** The offset of local time: [LocalTZA t true] at the UTC time [t],
      [LocalTZA t false] at the local time [t]. *)
  LocalTZA : Z -> bool -> Z;
  LocalTZA_range : forall t isUTC, - msPerDay < LocalTZA t isUTC < msPerDay;
  (** [Date.parse] *)
  Date_parse : jsstring -> timevalue;
  (** [toLocaleString] and [toLocaleDateString] of a valid date *)
  toLocale : LocaleFormat -> Z -> jsstring;
  (** [toISOString] of a valid date *)
  toISOString : Z -> jsstring;
  (** The percent-encoding of [URLSearchParams.toString] *)
  formEncode : jsstring -> jsstring
}.

Section DateUtilities.
Context {P : Platform}.

Definition LocalTime (t : Z) : Z := t + LocalTZA t true.
Definition UTC (t : Z) : Z := t - LocalTZA t false.

(** [new Date(year, month, day)]: a year from 0 to 99 means 1900 + year. *)
Definition Date_ymd (year month day : Z) : Date :=
  let yr := if (0 <=? year) && (year <=? 99) then 1900 + year else year in
  let finalDate := MakeDate (MakeDay yr month day) (MakeTime 0 0 0 0) in
  {| getTime := TimeClip (UTC finalDate) |}.

(** [new Date(dateStr)] *)
Definition Date_of_string (s : jsstring) : Date :=
  {| getTime := Date_parse s |}.

(** [date.setHours(h, m, s, ms)]: the date after the call. *)
Definition setHours (d : Date) (hour min sec ms : Z) : Date :=
  match getTime d with
  | NaN => {| getTime := NaN |}
  | Ms tv =>
      let t := LocalTime tv in
      let date := MakeDate (Day t) (MakeTime hour min sec ms) in
      {| getTime := TimeClip (UTC date) |}
  end.

(** [dateStr.match(/^\d{4}-\d{2}-\d{2}$/)] *)
Definition isBareDate (s : jsstring) : bool :=
  match s with
  | [y1; y2; y3; y4; h1; m1; m2; h2; d1; d2] =>
      isDigit y1 && isDigit y2 && isDigit y3 && isDigit y4 && (h1 =? 45)%N
      && isDigit m1 && isDigit m2 && (h2 =? 45)%N && isDigit d1 && isDigit d2
  | _ => false
  end.

Definition validOrNull (d : Date) : option Date :=
  if tv_isNaN (getTime d) then None else Some d.

(** [parseDate].  Nothing in its [try] block throws. *)
Definition parseDate (dateStr : option jsstring) : option Date :=
  if negb (truthy dateStr) then None
  else
    let s := orElse dateStr [] in
    if isBareDate s then
      match map Number (splitOn 45 [] s) with
      | [year; month; day] => validOrNull (Date_ymd year (month - 1) day)
      | _ => None
      end
    else validOrNull (Date_of_string s).

(** [isDateInRange] *)
Definition isDateInRange (date before after : option jsstring) : bool :=
  if negb (truthy date) then true
  else
    match parseDate date with
    | None => true
    | Some dueDate =>
        let beforeOk :=
          if truthy before then
            match parseDate before with
            | Some beforeDate =>
                let beforeDate := setHours beforeDate 23 59 59 999 in
                negb (tv_gtb (getTime dueDate) (getTime beforeDate))
            | None => true
            end
          else true in
        if negb beforeOk then false
        else
          if truthy after then
            match parseDate after with
            | Some afterDate =>
                let afterDate := setHours afterDate 0 0 0 0 in
                negb (tv_ltb (getTime dueDate) (getTime afterDate))
            | None => true
            end
          else true
    end.

(** [formatDate] *)
Definition formatDate (dateStr : option jsstring) (format : LocaleFormat) : jsstring :=
  if negb (truthy dateStr) then js "No date set"
  else
    match getTime (Date_of_string (orElse dateStr [])) with
    | NaN => js "Invalid date"
    | Ms t =>
        match format with
        | DateOnlyFormat => toLocale DateOnlyFormat t
        | _ => toLocale FullFormat t
        end
    end.

End DateUtilities.

Section HtmlRendering.
Context {P : Platform}.

(** [htmlToPlainText] *)
Definition htmlToPlainText (html : option jsstring) : jsstring :=
  if negb (truthy html) then []
  else plainTextOf (JSDOM (orElse html [])).

(** [convertHtmlToMarkdown] *)
Definition convertHtmlToMarkdown (html : jsstring) : jsstring :=
  markdownOf (JSDOM html).

(** [extractLinks] *)
Definition extractLinks (html : option jsstring) : list Link :=
  if negb (truthy html) then []
  else linksOf (JSDOM (orElse html [])).

End HtmlRendering.

(* ===================================================================== *)
(** * The records of the Canvas API                                       *)
(* ===================================================================== *)

Module CanvasCourse.
Record Term : Type := { term_name : jsstring }.
Record t : Type := {
  id : Z;
  name : jsstring;
  term : option Term
}.
End CanvasCourse.

Module DashboardCard.
Record t : Type := {
  id : Z;
  shortName : jsstring;
  term : option jsstring
}.
End DashboardCard.

Module Rubric.
Record criterion : Type := {
  id : jsstring;
  points : Z;
  description : jsstring;
  long_description : option jsstring
}.
End Rubric.

Module ExternalTool.
Record t : Type := { url : jsstring; new_tab : bool }.
End ExternalTool.

Module CanvasAssignment.
Record t : Type := {
  id : Z;
  name : jsstring;
  description : option jsstring;
  due_at : option jsstring;
  points_possible : Z;
  submission_types : option (list jsstring);
  allowed_extensions : option (list jsstring);
  allowed_attempts : option Z;
  grading_type : jsstring;
  lock_at : option jsstring;
  unlock_at : option jsstring;
  has_group_assignment : bool;
  group_category_id : option Z;
  peer_reviews : bool;
  word_count : option Z;
  external_tool_tag_attributes : option ExternalTool.t;
  rubric : option (list Rubric.criterion);
  use_rubric_for_grading : bool;
  published : bool;
  only_visible_to_overrides : bool;
  locked_for_user : bool;
  lock_explanation : option jsstring;
  turnitin_enabled : bool;
  vericite_enabled : bool;
  submission_draft_status : option jsstring;
  annotatable_attachment_id : option Z;
  anonymize_students : bool;
  require_lockdown_browser : bool
}.
End CanvasAssignment.

(** [AssignmentWithCourse]: [{...assignment, courseName, courseId}] *)
Record AssignmentWithCourse : Type := {
  assignment : CanvasAssignment.t;
  courseName : jsstring;
  courseId : Z
}.

(** A course or assignment id given to a tool: a string or a number. *)
Inductive IdArg : Type :=
| IdString (s : jsstring)
| IdNumber (n : Z).

Definition showId (i : IdArg) : jsstring :=
  match i with
  | IdString s => s
  | IdNumber n => showZ n
  end.

(** [if (courseId)]: the empty string and zero are false. *)
Definition idTruthy (i : option IdArg) : bool :=
  match i with
  | Some (IdString (_ :: _)) => true
  | Some (IdNumber n) => negb (n =? 0)
  | _ => false
  end.

(** [if (n)] for a nullable number. *)
Definition numTruthy (n : option Z) : bool :=
  match n with
  | Some v => negb (v =? 0)
  | None => false
  end.

(* ===================================================================== *)
(** * Computations: the diagnostic log and exceptions                     *)
(* ===================================================================== *)

Inductive Error : Type := mkError (message : jsstring).

Definition message (e : Error) : jsstring :=
  match e with mkError m => m end.

(** The lines written with [console.error], and the value returned or the
    error thrown. *)
Definition Js (A : Type) : Type := (list jsstring * (Error + A))%type.

Definition ret {A : Type} (a : A) : Js A := ([], inr a).
Definition throw {A : Type} (e : Error) : Js A := ([], inl e).
Definition console_error (line : jsstring) : Js unit := ([line], inr tt).

Definition bind {A B : Type} (m : Js A) (f : A -> Js B) : Js B :=
  match m with
  | (l1, inl e) => (l1, inl e)
  | (l1, inr a) => let (l2, r) := f a in (l1 ++ l2, r)
  end.

(** [try { m } catch (error) { h error }] *)
Definition tryCatch {A : Type} (m : Js A) (h : Error -> Js A) : Js A :=
  match m with
  | (l1, inl e) => let (l2, r) := h e in (l1 ++ l2, r)
  | (l1, inr a) => (l1, inr a)
  end.

Declare Scope js_scope.
Delimit Scope js_scope with js.
Notation "x <- m ;; k" := (bind m (fun x => k))
  (at level 100, m at next level, right associativity) : js_scope.
Notation "m ;;; k" := (bind m (fun _ => k))
  (at level 100, right associativity) : js_scope.

Definition logOf {A : Type} (m : Js A) : list jsstring := fst m.
Definition outcomeOf {A : Type} (m : Js A) : Error + A := snd m.

(* ===================================================================== *)
(** * The remote resource client                                          *)
(* ===================================================================== *)

(** A response of [fetch], its body already read both ways: [text] is
    [response.text()], [json] is [response.json()] at the type the caller
    expects, or the error it rejects with. *)
Record Response (T : Type) : Type := {
  ok : bool;
  status : Z;
  text_body : jsstring;
  json : Error + T
}.

(** The credentials loaded at start-up and the remote API: what [fetch]
    answers for a URL, or the error it rejects with, at each type the program
    requests. *)
Record World : Type := {
  canvasApiToken : option jsstring;
  canvasDomain : option jsstring;
  fetchCourses : jsstring -> Error + Response (list CanvasCourse.t);
  fetchCourse : jsstring -> Error + Response CanvasCourse.t;
  fetchAssignments : jsstring -> Error + Response (list CanvasAssignment.t);
  fetchAssignment : jsstring -> Error + Response CanvasAssignment.t;
  fetchDashboardCards : jsstring -> Error + Response (list DashboardCard.t)
}.

Local Open Scope js_scope.

(** [getBaseUrl] *)
Definition getBaseUrl (w : World) : Js jsstring :=
  if negb (truthy (canvasDomain w))
  then throw (mkError (js "Canvas domain not set. Please check CANVAS_DOMAIN environment variable."))
  else ret (js "https://" ++ orElse (canvasDomain w) [] ++ js "/api/v1").

Definition liftResult {A : Type} (r : Error + A) : Js A := ([], r).

(** [canvasApiRequest]; every caller uses the method GET and no body. *)
Definition canvasApiRequest {T : Type} (w : World)
    (fetch : jsstring -> Error + Response T) (path : jsstring) : Js T :=
  if negb (truthy (canvasApiToken w))
  then throw (mkError (js "Canvas API token not set. Please check CANVAS_API_TOKEN environment variable."))
  else
    base <- getBaseUrl w ;;
    let url := base ++ path in
    response <- liftResult (fetch url) ;;
    if negb (ok response) then
      let error := text_body response in
      throw (mkError (js "Canvas API error: " ++ showZ (status response)
                      ++ js " - " ++ error))
    else liftResult (json response).

(** ** The validation at start-up *)

Module CanvasUser.
Record t : Type := {
  id : Z;
  name : jsstring;
  email : jsstring
}.
End CanvasUser.

(** [validateSetup]: the warnings for what is not configured and, when both
    credentials are there, the authentication check against [/users/self].
    [fetchUser] is what [fetch] answers at the type of a user. *)
Definition validateSetup (w : World)
    (fetchUser : jsstring -> Error + Response CanvasUser.t) : Js unit :=
  ((if negb (truthy (canvasApiToken w))
    then console_error (js "Warning: CANVAS_API_TOKEN not set. Server will not function correctly.")
    else ret tt) ;;;
   ((if negb (truthy (canvasDomain w))
     then console_error (js "Warning: CANVAS_DOMAIN not set. Server will not function correctly.")
     else ret tt) ;;;
    (if truthy (canvasApiToken w) && truthy (canvasDomain w) then
       (console_error (js "Environment configured correctly for domain: "
                       ++ orElse (canvasDomain w) []) ;;;
        tryCatch
          (user <- canvasApiRequest w fetchUser (js "/users/self") ;;
           console_error (js "Successfully authenticated as " ++ CanvasUser.name user
                          ++ js " (" ++ CanvasUser.email user ++ js ")"))
          (fun error =>
             console_error (js "Authentication failed: " ++ message error)))
     else ret tt))).

(* ===================================================================== *)
(** * The tool handlers and the resource handler                          *)
(* ===================================================================== *)

(** [{content: [{type: "text", text}], isError}]; [isError] is false where
    the source leaves it out. *)
Record ToolResult : Type := {
  content_text : jsstring;
  isError : bool
}.

(** [{contents: [{uri, text, mimeType}]}] *)
Record ResourceResult : Type := {
  uri : jsstring;
  resource_text : jsstring;
  mimeType : jsstring
}.

Definition textResult (t : jsstring) : ToolResult :=
  {| content_text := t; isError := false |}.
Definition errorResult (t : jsstring) : ToolResult :=
  {| content_text := t; isError := true |}.

Inductive EnrollmentState : Type := Active | Completed | AllCourses.

Definition showState (s : EnrollmentState) : jsstring :=
  match s with
  | Active => js "active"
  | Completed => js "completed"
  | AllCourses => js "all"
  end.

Inductive FormatType : Type := Full | Plain | Markdown.

Module SearchArgs.
Record t : Type := {
  query : option jsstring;
  dueBefore : option jsstring;
  dueAfter : option jsstring;
  includeCompleted : bool;
  courseId : option IdArg
}.
End SearchArgs.

(** [arr.includes(x)] on an array of strings *)
Definition arrayIncludes (l : list jsstring) (x : jsstring) : bool :=
  existsb (jsstring_eqb x) l.

Definition isEmpty {A : Type} (l : list A) : bool :=
  match l with [] => true | _ => false end.

Definition lengthZ {A : Type} (l : list A) : Z := Z.of_nat (List.length l).

Section Handlers.
Context {P : Platform}.
Variable w : World.

(** ** list_courses *)

Definition list_courses (state : EnrollmentState) : Js ToolResult :=
  tryCatch
    (courses <- canvasApiRequest w (fetchCourses w)
                  (js "/courses?enrollment_state=" ++ showState state
                   ++ js "&include[]=term") ;;
     if isEmpty courses then
       ret (textResult (js "No " ++ showState state ++ js " courses found."))
     else
       let courseList :=
         join [LF]
           (map (fun course =>
                   let termName :=
                     match CanvasCourse.term course with
                     | Some t => js "(" ++ CanvasCourse.term_name t ++ js ")"
                     | None => []
                     end in
                   js "- ID: " ++ showZ (CanvasCourse.id course) ++ js " | "
                   ++ CanvasCourse.name course ++ js " " ++ termName)
                courses) in
       ret (textResult (js "Your " ++ showState state ++ js " courses:"
                        ++ [LF; LF] ++ courseList)))
    (fun error =>
       ret (errorResult (js "Failed to fetch courses: " ++ message error))).

(** ** canvas_list_active_courses *)

Definition canvas_list_active_courses : Js ToolResult :=
  tryCatch
    (dashboardCards <- canvasApiRequest w (fetchDashboardCards w)
                         (js "/dashboard/dashboard_cards") ;;
     if isEmpty dashboardCards then
       ret (textResult (js "No active courses found in your dashboard."))
     else
       let courseList :=
         join [LF]
           (map (fun card =>
                   let termName :=
                     if truthy (DashboardCard.term card)
                     then js "(" ++ orElse (DashboardCard.term card) [] ++ js ")"
                     else [] in
                   js "- ID: " ++ showZ (DashboardCard.id card) ++ js " | "
                   ++ DashboardCard.shortName card ++ js " " ++ termName)
                dashboardCards) in
       ret (textResult (js "Your active courses:" ++ [LF; LF] ++ courseList)))
    (fun error =>
       ret (errorResult (js "Failed to fetch active courses: " ++ message error))).

(** ** search_assignments *)

(** [query?.trim() || ""] *)
Definition normalizeQuery (query : option jsstring) : jsstring :=
  match query with
  | Some q => trim q
  | None => []
  end.

Definition isWildcardQuery (normalizedQuery : jsstring) : bool :=
  jsstring_eqb normalizedQuery [] || jsstring_eqb normalizedQuery (js "*").

(** [normalizedQuery.toLowerCase().split(/\s+/).filter(term => term.length > 0)] *)
Definition searchTerms (normalizedQuery : jsstring) : list jsstring :=
  filter (fun term => negb (isEmpty term))
         (splitWhitespace (toLowerCase normalizedQuery)).

(** The callback of [assignments.filter] that matches the query. *)
Definition matchesQuery (normalizedQuery : jsstring) (a : CanvasAssignment.t) : bool :=
  let terms := searchTerms normalizedQuery in
  let titleMatch :=
    existsb (fun term => includes (toLowerCase (CanvasAssignment.name a)) term) terms in
  let descriptionMatch :=
    if truthy (CanvasAssignment.description a) then
      existsb (fun term =>
                 includes (toLowerCase (htmlToPlainText (CanvasAssignment.description a)))
                          term) terms
    else false in
  titleMatch || descriptionMatch.

Definition matchingAssignments (isWildcard : bool) (normalizedQuery : jsstring)
    (assignments : list CanvasAssignment.t) : list CanvasAssignment.t :=
  if isWildcard then assignments
  else filter (matchesQuery normalizedQuery) assignments.

(** [date.toISOString()], which throws a RangeError on an invalid date. *)
Definition toISOStringJs (d : Date) : Js jsstring :=
  match getTime d with
  | NaN => throw (mkError (js "Invalid time value"))
  | Ms t => ret (toISOString t)
  end.

Definition URLSearchParams : Type := list (jsstring * jsstring).

Definition paramsHas (params : URLSearchParams) (key : jsstring) : bool :=
  existsb (fun kv => jsstring_eqb (fst kv) key) params.

Definition paramsToString (params : URLSearchParams) : jsstring :=
  join (js "&")
       (map (fun kv => formEncode (fst kv) ++ js "=" ++ formEncode (snd kv)) params).

(** The query parameters built for one course: the bucket, then the exact
    bounds. *)
Definition buildParams (dueBefore dueAfter : option jsstring) : Js URLSearchParams :=
  let params : URLSearchParams := [] in
  let params :=
    if truthy dueAfter && negb (truthy dueBefore)
    then params ++ [(js "bucket", js "future")]
    else if truthy dueBefore && negb (truthy dueAfter)
    then params ++ [(js "bucket", js "past")]
    else params in
  params <-
    (if truthy dueAfter then
       match parseDate dueAfter with
       | Some afterDate =>
           let afterDate := setHours afterDate 0 0 0 0 in
           iso <- toISOStringJs afterDate ;;
           ret (params ++ [(js "due_after", iso)])
       | None => ret params
       end
     else ret params) ;;
  (if truthy dueBefore then
     match parseDate dueBefore with
     | Some beforeDate =>
         let beforeDate := setHours beforeDate 23 59 59 999 in
         iso <- toISOStringJs beforeDate ;;
         ret (params ++ [(js "due_before", iso)])
     | None => ret params
     end
   else ret params).

(** The callback of the second [filter]: the local date check, skipped when
    the bucket parameter was sent. *)
Definition dateFilter (dueBefore dueAfter : option jsstring) (params : URLSearchParams)
    (a : CanvasAssignment.t) : bool :=
  if (truthy dueAfter && negb (truthy dueBefore) && paramsHas params (js "bucket"))
     || (truthy dueBefore && negb (truthy dueAfter) && paramsHas params (js "bucket"))
  then true
  else isDateInRange (CanvasAssignment.due_at a) dueBefore dueAfter.

Definition tagWithCourse (course : CanvasCourse.t) (a : CanvasAssignment.t)
  : AssignmentWithCourse :=
  {| assignment := a;
     courseName := CanvasCourse.name course;
     courseId := CanvasCourse.id course |}.

(** [assignmentsUrl] once the parameters are appended. *)
Definition assignmentsUrlFor (course : CanvasCourse.t) (params : URLSearchParams)
  : jsstring :=
  let assignmentsUrl :=
    js "/courses/" ++ showZ (CanvasCourse.id course)
    ++ js "/assignments?per_page=100&order_by=due_at&include[]=submission" in
  if isEmpty (paramsToString params) then assignmentsUrl
  else assignmentsUrl ++ js "&" ++ paramsToString params.

(** The [try] block of the loop over the courses: what it pushes onto
    [allResults]. *)
Definition searchCourse (isWildcard : bool) (normalizedQuery : jsstring)
    (dueBefore dueAfter : option jsstring) (course : CanvasCourse.t)
  : Js (list AssignmentWithCourse) :=
  params <- buildParams dueBefore dueAfter ;;
  let assignmentsUrl := assignmentsUrlFor course params in
  (console_error (js "Fetching assignments from URL: " ++ assignmentsUrl) ;;;
   assignments <- canvasApiRequest w (fetchAssignments w) assignmentsUrl ;;
   (console_error (js "Found " ++ showZ (lengthZ assignments)
                   ++ js " assignments in course " ++ showZ (CanvasCourse.id course)) ;;;
    let matching := matchingAssignments isWildcard normalizedQuery assignments in
    let dateFilteredAssignments := filter (dateFilter dueBefore dueAfter params) matching in
    ret (map (tagWithCourse course) dateFilteredAssignments))).

(** One turn of [for (const course of courses)]: the [try] block, and the
    [catch] that logs and goes on. *)
Definition searchStep (isWildcard : bool) (normalizedQuery : jsstring)
    (dueBefore dueAfter : option jsstring)
    (allResults : list AssignmentWithCourse) (course : CanvasCourse.t)
  : Js (list AssignmentWithCourse) :=
  tryCatch
    (found <- searchCourse isWildcard normalizedQuery dueBefore dueAfter course ;;
     ret (allResults ++ found))
    (fun error =>
       console_error (js "Error searching in course " ++ showZ (CanvasCourse.id course)
                      ++ js ": " ++ message error) ;;;
       ret allResults).

Fixpoint searchCourses (isWildcard : bool) (normalizedQuery : jsstring)
    (dueBefore dueAfter : option jsstring)
    (courses : list CanvasCourse.t) (allResults : list AssignmentWithCourse)
  : Js (list AssignmentWithCourse) :=
  match courses with
  | [] => ret allResults
  | course :: rest =>
      allResults <- searchStep isWildcard normalizedQuery dueBefore dueAfter
                      allResults course ;;
      searchCourses isWildcard normalizedQuery dueBefore dueAfter rest allResults
  end.

(** [a - b] on time values, read by [sort]: a [NaN] counts as zero. *)
Definition tv_sub (a b : timevalue) : Z :=
  match a, b with
  | Ms x, Ms y => x - y
  | _, _ => 0
  end.

(** The comparator of [allResults.sort]. *)
Definition compareDue (a b : AssignmentWithCourse) : Z :=
  let a_due := CanvasAssignment.due_at (assignment a) in
  let b_due := CanvasAssignment.due_at (assignment b) in
  if negb (truthy a_due) && negb (truthy b_due) then 0
  else if negb (truthy a_due) then 1
  else if negb (truthy b_due) then -1
  else
    match parseDate a_due, parseDate b_due with
    | Some dateA, Some dateB => tv_sub (getTime dateA) (getTime dateB)
    | _, _ => 0
    end.

End Handlers.

(** [Array.prototype.sort] with a comparator: a stable sort.  An element
    moves in front of the elements it is strictly smaller than, and never in
    front of one it compares equal to or greater than.

    ECMAScript fixes the result of the sort when the comparator is consistent
    on the array, that is, follows a total preorder of its elements: the
    result is then the one stable arrangement in ascending order, which this
    insertion sort returns as every other stable sort does
    ([stable_sort_unique]).  When the comparator is not consistent the order
    is left to the engine, and only that the result is a permutation of the
    array is common to all engines.  The comparator of the search,
    [compareDue], is consistent on results whose due dates parse, and the
    properties of the order of the results are stated for such results.
    Beyond them the only order stated is that of one array whose neighbours
    all compare equal, which a sort that starts by looking for an ascending
    run, as the one of V8 does, returns as it is. *)
Section ArraySort.
Variable A : Type.
Variable compareFn : A -> A -> Z.

Fixpoint insertSorted (x : A) (sorted : list A) : list A :=
  match sorted with
  | [] => [x]
  | y :: r => if compareFn x y <=? 0 then x :: y :: r else y :: insertSorted x r
  end.

Fixpoint sort (l : list A) : list A :=
  match l with
  | [] => []
  | x :: r => insertSorted x (sort r)
  end.

End ArraySort.

Section SearchHandler.
Context {P : Platform}.
Variable w : World.

Definition sortResults (allResults : list AssignmentWithCourse)
  : list AssignmentWithCourse :=
  sort compareDue allResults.

(** [dateStr] of the result text *)
Definition dateRangeText (dueBefore dueAfter : option jsstring) : jsstring :=
  let dateRange : list jsstring := [] in
  let dateRange :=
    if truthy dueAfter then dateRange ++ [js "after " ++ orElse dueAfter []]
    else dateRange in
  let dateRange :=
    if truthy dueBefore then dateRange ++ [js "before " ++ orElse dueBefore []]
    else dateRange in
  if isEmpty dateRange then []
  else js " due " ++ join (js " and ") dateRange.

(** [queryStr] of the result text *)
Definition queryText (isWildcard : bool) (normalizedQuery : jsstring) : jsstring :=
  if negb isWildcard
  then js " matching " ++ [QUOTE] ++ normalizedQuery ++ [QUOTE]
  else [].

Definition resultEntry (a : AssignmentWithCourse) : jsstring :=
  let dueDate := formatDate (CanvasAssignment.due_at (assignment a)) FullFormat in
  let status :=
    if CanvasAssignment.published (assignment a) then [] else js " (Unpublished)" in
  join [LF]
    [ js "- Course: " ++ courseName a ++ js " (ID: " ++ showZ (courseId a) ++ js ")";
      js "  Assignment: " ++ CanvasAssignment.name (assignment a) ++ status
        ++ js " (ID: " ++ showZ (CanvasAssignment.id (assignment a)) ++ js ")";
      js "  Due: " ++ dueDate ].

(** The candidate courses: the one course asked for, or the courses of the
    enrollment state. *)
Definition resolveCourses (args : SearchArgs.t) : Js (list CanvasCourse.t) :=
  if idTruthy (SearchArgs.courseId args) then
    match SearchArgs.courseId args with
    | Some cid =>
        course <- canvasApiRequest w (fetchCourse w) (js "/courses/" ++ showId cid) ;;
        ret [course]
    | None => ret []
    end
  else
    let courseState := if SearchArgs.includeCompleted args then js "all" else js "active" in
    canvasApiRequest w (fetchCourses w) (js "/courses?enrollment_state=" ++ courseState).

(** The search behind the course list: the loop over the courses and the
    sort. *)
Definition searchAll (args : SearchArgs.t) (courses : list CanvasCourse.t)
  : Js (list AssignmentWithCourse) :=
  let normalizedQuery := normalizeQuery (SearchArgs.query args) in
  let isWildcard := isWildcardQuery normalizedQuery in
  allResults <- searchCourses w isWildcard normalizedQuery
                  (SearchArgs.dueBefore args) (SearchArgs.dueAfter args) courses [] ;;
  ret (sortResults allResults).

Definition search_assignments (args : SearchArgs.t) : Js ToolResult :=
  tryCatch
    (let normalizedQuery := normalizeQuery (SearchArgs.query args) in
     let isWildcard := isWildcardQuery normalizedQuery in
     let dueBefore := SearchArgs.dueBefore args in
     let dueAfter := SearchArgs.dueAfter args in
     courses <- resolveCourses args ;;
     if isEmpty courses then ret (textResult (js "No courses found."))
     else
       allResults <- searchAll args courses ;;
       let dateStr := dateRangeText dueBefore dueAfter in
       let queryStr := queryText isWildcard normalizedQuery in
       if isEmpty allResults then
         ret (textResult (js "No assignments found" ++ queryStr ++ dateStr ++ js "."))
       else
         let resultsList := join [LF; LF] (map resultEntry allResults) in
         ret (textResult (js "Found " ++ showZ (lengthZ allResults) ++ js " assignments"
                          ++ queryStr ++ dateStr ++ js ":" ++ [LF; LF] ++ resultsList)))
    (fun error => ret (errorResult (js "Search failed: " ++ message error))).

End SearchHandler.

Section AssignmentHandlers.
Context {P : Platform}.
Variable w : World.

(** ** get_assignment: the lines of the report *)

Definition describe (a : CanvasAssignment.t) (formatType : FormatType) : jsstring :=
  let description := CanvasAssignment.description a in
  match formatType with
  | Full => orElse description (js "No description available")
  | Plain => orElse (Some (htmlToPlainText description)) (js "No description available")
  | Markdown =>
      if truthy description then convertHtmlToMarkdown (orElse description [])
      else js "No description available"
  end.

Definition assignmentLinks (a : CanvasAssignment.t) : list Link :=
  if truthy (CanvasAssignment.description a)
  then extractLinks (CanvasAssignment.description a)
  else [].

(** [assignment.submission_types?.join(', ') || 'Not specified'] *)
Definition submissionTypesText (a : CanvasAssignment.t) : jsstring :=
  orElse (option_map (join (js ", ")) (CanvasAssignment.submission_types a))
         (js "Not specified").

(** Each block of the handler that pushes lines onto [details] under a test
    is a function from the array before the block to the array after it. *)

(** "Add allowed file extensions if relevant" *)
Definition pushAllowedFileTypes (a : CanvasAssignment.t) (details : list jsstring)
  : list jsstring :=
  match CanvasAssignment.submission_types a, CanvasAssignment.allowed_extensions a with
  | Some types, Some (e :: es) =>
      if arrayIncludes types (js "online_upload")
      then details ++ [js "- **Allowed File Types:** "
                       ++ join (js ", ")
                            (map (fun ext => [BACKTICK] ++ js "." ++ ext ++ [BACKTICK])
                                 (e :: es))]
      else details
  | _, _ => details
  end.

(** "Add attempt limits if specified" *)
Definition pushAllowedAttempts (a : CanvasAssignment.t) (details : list jsstring)
  : list jsstring :=
  match CanvasAssignment.allowed_attempts a with
  | Some n =>
      if negb (n =? -1)
      then details ++ [js "- **Allowed Attempts:** " ++ showZ n]
      else details
  | None => details
  end.

(** "Add time restrictions if any" *)
Definition pushTimeRestrictions (a : CanvasAssignment.t) (details : list jsstring)
  : list jsstring :=
  if truthy (CanvasAssignment.unlock_at a) || truthy (CanvasAssignment.lock_at a) then
    let details := details ++ [js "- **Time Restrictions:**"] in
    let details :=
      if truthy (CanvasAssignment.unlock_at a)
      then details ++ [js "  - Available from: "
                       ++ formatDate (CanvasAssignment.unlock_at a) FullFormat]
      else details in
    if truthy (CanvasAssignment.lock_at a)
    then details ++ [js "  - Locks at: "
                     ++ formatDate (CanvasAssignment.lock_at a) FullFormat]
    else details
  else details.

(** "Add group assignment info if relevant" *)
Definition pushGroupAssignment (a : CanvasAssignment.t) (details : list jsstring)
  : list jsstring :=
  if CanvasAssignment.has_group_assignment a
  then details ++ [js "- **Group Assignment:** Yes"] else details.

(** "Add peer review info if enabled" *)
Definition pushPeerReviews (a : CanvasAssignment.t) (details : list jsstring)
  : list jsstring :=
  if CanvasAssignment.peer_reviews a
  then details ++ [js "- **Peer Reviews Required:** Yes"] else details.

(** "Add word count requirement if specified" *)
Definition pushWordCount (a : CanvasAssignment.t) (details : list jsstring)
  : list jsstring :=
  match CanvasAssignment.word_count a with
  | Some n =>
      if negb (n =? 0)
      then details ++ [js "- **Required Word Count:** " ++ showZ n]
      else details
  | None => details
  end.

(** "Add external tool info if present" *)
Definition pushExternalTool (a : CanvasAssignment.t) (details : list jsstring)
  : list jsstring :=
  match CanvasAssignment.external_tool_tag_attributes a with
  | Some tool =>
      if truthy (Some (ExternalTool.url tool)) then
        let details := details ++ [js "- **External Tool Required:** Yes"] in
        let details := details ++ [js "  - Tool URL: " ++ ExternalTool.url tool] in
        if ExternalTool.new_tab tool
        then details ++ [js "  - Opens in new tab: Yes"] else details
      else details
  | None => details
  end.

(** "Add plagiarism detection info" *)
Definition pushPlagiarismDetection (a : CanvasAssignment.t) (details : list jsstring)
  : list jsstring :=
  if CanvasAssignment.turnitin_enabled a || CanvasAssignment.vericite_enabled a then
    let details := details ++ [js "- **Plagiarism Detection:**"] in
    let details :=
      if CanvasAssignment.turnitin_enabled a
      then details ++ [js "  - Turnitin enabled"] else details in
    if CanvasAssignment.vericite_enabled a
    then details ++ [js "  - VeriCite enabled"] else details
  else details.

(** The callback of [assignment.rubric.forEach] *)
Definition pushCriterion (details : list jsstring) (criterion : Rubric.criterion)
  : list jsstring :=
  let details :=
    details ++ [js "### " ++ Rubric.description criterion ++ js " ("
                ++ showZ (Rubric.points criterion) ++ js " points)"] in
  let details :=
    if truthy (Rubric.long_description criterion)
    then details ++ [orElse (Rubric.long_description criterion) []]
    else details in
  details ++ [[]].

(** "Add rubric information if available" *)
Definition pushRubric (a : CanvasAssignment.t) (details : list jsstring)
  : list jsstring :=
  match CanvasAssignment.rubric a with
  | Some (c :: cs) =>
      let details := details ++ [[]; js "## Rubric"] in
      let details :=
        if CanvasAssignment.use_rubric_for_grading a
        then details ++ [js "*This rubric is used for grading*"; []]
        else details in
      fold_left pushCriterion (c :: cs) details
  | _ => details
  end.

(** [specialReqs] *)
Definition specialRequirements (a : CanvasAssignment.t) : list jsstring :=
  let specialReqs : list jsstring := [] in
  let specialReqs :=
    if CanvasAssignment.anonymize_students a
    then specialReqs ++ [js "Anonymous Grading Enabled"] else specialReqs in
  let specialReqs :=
    if CanvasAssignment.require_lockdown_browser a
    then specialReqs ++ [js "Lockdown Browser Required"] else specialReqs in
  if numTruthy (CanvasAssignment.annotatable_attachment_id a)
  then specialReqs ++ [js "Annotation Required"] else specialReqs.

(** "Add special requirements" *)
Definition pushSpecialRequirements (a : CanvasAssignment.t) (details : list jsstring)
  : list jsstring :=
  let specialReqs := specialRequirements a in
  if negb (isEmpty specialReqs) then
    let details := details ++ [[]; js "## Special Requirements"; []] in
    fold_left (fun details req => details ++ [js "- " ++ req]) specialReqs details
  else details.

(** "Add lock status if relevant" *)
Definition pushLockStatus (a : CanvasAssignment.t) (details : list jsstring)
  : list jsstring :=
  if CanvasAssignment.locked_for_user a then
    let details := details ++ [[]; js "## Access Restrictions"; []] in
    details ++ [orElse (CanvasAssignment.lock_explanation a)
                       (js "This assignment is currently locked.")]
  else details.

(** "Add links section if any links were found" *)
Definition pushLinks (links : list Link) (details : list jsstring) : list jsstring :=
  if negb (isEmpty links) then
    let details := details ++ [[]; js "## Required Materials and Links"; []] in
    fold_left (fun details link =>
                 details ++ [js "- [" ++ text link ++ js "](" ++ href link ++ js ")"])
              links details
  else details.

(** The array [details] when the handler joins it: the lines it starts
    with, then every block of the source in its order. *)
Definition assignmentDetails (courseId : IdArg) (a : CanvasAssignment.t)
    (formatType : FormatType) : list jsstring :=
  let description := describe a formatType in
  let links := assignmentLinks a in
  let details :=
    [ js "# " ++ CanvasAssignment.name a;
      [];
      js "**Course ID:** " ++ showId courseId;
      js "**Assignment ID:** " ++ showZ (CanvasAssignment.id a);
      js "**Due Date:** " ++ formatDate (CanvasAssignment.due_at a) FullFormat;
      js "**Points Possible:** " ++ showZ (CanvasAssignment.points_possible a);
      js "**Status:** "
        ++ (if CanvasAssignment.published a then js "Published" else js "Unpublished")
        ++ (if CanvasAssignment.only_visible_to_overrides a
            then js " (Only visible to specific students)" else []);
      [];
      js "## Submission Requirements";
      js "- **Submission Type:** " ++ submissionTypesText a ] in
  let details := pushAllowedFileTypes a details in
  let details := pushAllowedAttempts a details in
  let details :=
    details ++ [js "- **Grading Type:** "
                ++ toLowerCase (underscoresToSpaces (CanvasAssignment.grading_type a))] in
  let details := pushTimeRestrictions a details in
  let details := pushGroupAssignment a details in
  let details := pushPeerReviews a details in
  let details := pushWordCount a details in
  let details := pushExternalTool a details in
  let details := pushPlagiarismDetection a details in
  let details := pushRubric a details in
  let details := pushSpecialRequirements a details in
  let details := pushLockStatus a details in
  let details := details ++ [[]; js "## Description"; []; description] in
  pushLinks links details.

Definition get_assignment (courseId assignmentId : IdArg) (formatType : FormatType)
  : Js ToolResult :=
  tryCatch
    (a <- canvasApiRequest w (fetchAssignment w)
            (js "/courses/" ++ showId courseId ++ js "/assignments/"
             ++ showId assignmentId) ;;
     ret (textResult (join [LF] (assignmentDetails courseId a formatType))))
    (fun error =>
       ret (errorResult (js "Failed to fetch assignment details: " ++ message error))).

(** ** assignment_content, the resource *)

Definition assignment_content (uri_href courseId assignmentId : jsstring)
  : Js ResourceResult :=
  tryCatch
    (a <- canvasApiRequest w (fetchAssignment w)
            (js "/courses/" ++ courseId ++ js "/assignments/" ++ assignmentId) ;;
     let dueDate :=
       if truthy (CanvasAssignment.due_at a) then
         match Date_parse (orElse (CanvasAssignment.due_at a) []) with
         | Ms t => toLocale DefaultFormat t
         | NaN => js "Invalid Date"
         end
       else js "No due date" in
     let content :=
       join [LF]
         [ js "# " ++ CanvasAssignment.name a;
           [];
           js "**Due Date:** " ++ dueDate;
           js "**Points Possible:** " ++ showZ (CanvasAssignment.points_possible a);
           js "**Submission Type:** " ++ submissionTypesText a;
           [];
           js "## Description";
           [];
           orElse (CanvasAssignment.description a) (js "No description available") ] in
     ret {| uri := uri_href; resource_text := content; mimeType := js "text/markdown" |})
    (fun error =>
       throw (mkError (js "Failed to fetch assignment content: " ++ message error))).

End AssignmentHandlers.

(* ===================================================================== *)
(** * A reference platform                                                *)
(* ===================================================================== *)

(** The closed examples below run on this platform: the time zone is UTC,
    dates print in the ISO format, [Date.parse] reads the two ISO forms the
    Canvas API and the tool arguments use (a date, or a date and time in
    UTC) and rejects everything else, lower-casing maps the ASCII letters,
    and the parser builds the document of a text without markup. *)
Module Reference.

(** The last [width] decimal digits of [n]. *)
Fixpoint padDigits (width : nat) (n : Z) : jsstring :=
  match width with
  | O => []
  | S k => padDigits k (n / 10) ++ [Z.to_N (48 + n mod 10)]
  end.

(** The civil date of a day number: year, month (1..12), day. *)
Definition civilFromDays (days : Z) : Z * Z * Z :=
  let z := days + 719468 in
  let era := z / 146097 in
  let doe := z - era * 146097 in
  let yoe := (doe - doe / 1460 + doe / 36524 - doe / 146096) / 365 in
  let doy := doe - (365 * yoe + yoe / 4 - yoe / 100) in
  let mp := (5 * doy + 2) / 153 in
  let d := doy - (153 * mp + 2) / 5 + 1 in
  let m := if mp <? 10 then mp + 3 else mp - 9 in
  let y := yoe + era * 400 + (if m <=? 2 then 1 else 0) in
  (y, m, d).

Definition isoDate (t : Z) : jsstring :=
  let '(y, m, d) := civilFromDays (Day t) in
  (if (0 <=? y) && (y <=? 9999) then padDigits 4 y
   else (if y <? 0 then js "-" else js "+") ++ padDigits 6 (Z.abs y))
  ++ js "-" ++ padDigits 2 m ++ js "-" ++ padDigits 2 d.

Definition isoTime (t : Z) : jsstring :=
  let ms := t mod msPerDay in
  padDigits 2 (ms / msPerHour) ++ js ":" ++ padDigits 2 (ms / msPerMinute mod 60)
  ++ js ":" ++ padDigits 2 (ms / msPerSecond mod 60).

Definition toISOString (t : Z) : jsstring :=
  isoDate t ++ js "T" ++ isoTime t ++ js "." ++ padDigits 3 (t mod 1000) ++ js "Z".

Definition toLocale (f : LocaleFormat) (t : Z) : jsstring :=
  match f with
  | DateOnlyFormat => isoDate t
  | FullFormat => isoDate t ++ js " " ++ firstn 5 (isoTime t) ++ js " UTC"
  | DefaultFormat => isoDate t ++ js " " ++ isoTime t
  end.

Definition parseIsoDate (s : jsstring) : option Z :=
  if isBareDate s then
    match map Number (splitOn 45 [] s) with
    | [year; month; day] =>
        if (1 <=? month) && (month <=? 12) && (1 <=? day) && (day <=? 31)
        then Some (MakeDay year (month - 1) day)
        else None
    | _ => None
    end
  else None.

Definition parseIsoTime (s : jsstring) : option Z :=
  match s with
  | [h1; h2; c1; m1; m2; c2; s1; s2] =>
      if isDigit h1 && isDigit h2 && (c1 =? 58)%N && isDigit m1 && isDigit m2
         && (c2 =? 58)%N && isDigit s1 && isDigit s2
      then
        let h := Number [h1; h2] in
        let m := Number [m1; m2] in
        let sec := Number [s1; s2] in
        if (h <=? 23) && (m <=? 59) && (sec <=? 59)
        then Some (MakeTime h m sec 0) else None
      else None
  | _ => None
  end.

Definition Date_parse (s : jsstring) : timevalue :=
  match parseIsoDate (firstn 10 s), skipn 10 s with
  | Some day, [] => TimeClip (MakeDate day 0)
  | Some day, tee :: rest =>
      if (tee =? 84)%N && (nth 8 rest 0%N =? 90)%N && (List.length rest =? 9)%nat then
        match parseIsoTime (firstn 8 rest) with
        | Some time => TimeClip (MakeDate day time)
        | None => NaN
        end
      else NaN
  | None, _ => NaN
  end.

Definition lowerUnit (c : N) : N :=
  if ((65 <=? c) && (c <=? 90))%N then (c + 32)%N else c.

Definition toLowerCase (s : jsstring) : jsstring := map lowerUnit s.

Definition hexDigit (n : N) : N :=
  if (n <? 10)%N then (48 + n)%N else (55 + n)%N.

Definition percent (byte : N) : jsstring :=
  [37%N; hexDigit (byte / 16); hexDigit (byte mod 16)].

Definition isUnreserved (c : N) : bool :=
  isDigit c || ((65 <=? c) && (c <=? 90))%N || ((97 <=? c) && (c <=? 122))%N
  || (c =? 42)%N || (c =? 45)%N || (c =? 46)%N || (c =? 95)%N.

Definition encodeUnit (c : N) : jsstring :=
  if isUnreserved c then [c]
  else if (c =? 32)%N then [43%N]
  else if (c <? 128)%N then percent c
  else if (c <? 2048)%N then percent (192 + c / 64) ++ percent (128 + c mod 64)
  else percent (224 + c / 4096) ++ percent (128 + c / 64 mod 64)
       ++ percent (128 + c mod 64).

Definition formEncode (s : jsstring) : jsstring := flat_map encodeUnit s.

Definition LocalTZA (t : Z) (isUTC : bool) : Z := 0.

Definition platform : Platform :=
  Build_Platform textBody toLowerCase eq_refl LocalTZA
    (fun _ _ => conj eq_refl eq_refl)
    Date_parse toLocale toISOString formEncode.

End Reference.

(* ===================================================================== *)
(** * Sample data for the closed examples                                 *)
(* ===================================================================== *)

(** An assignment with the given id, title and due date and nothing else
    set, and the search result it makes in course 1: the data of the closed
    examples. *)
Definition sampleAssignment (id : Z) (name : jsstring) (due_at : option jsstring)
  : CanvasAssignment.t :=
  {| CanvasAssignment.id := id;
     CanvasAssignment.name := name;
     CanvasAssignment.description := None;
     CanvasAssignment.due_at := due_at;
     CanvasAssignment.points_possible := 10;
     CanvasAssignment.submission_types := Some [js "online_text_entry"];
     CanvasAssignment.allowed_extensions := None;
     CanvasAssignment.allowed_attempts := None;
     CanvasAssignment.grading_type := js "points";
     CanvasAssignment.lock_at := None;
     CanvasAssignment.unlock_at := None;
     CanvasAssignment.has_group_assignment := false;
     CanvasAssignment.group_category_id := None;
     CanvasAssignment.peer_reviews := false;
     CanvasAssignment.word_count := None;
     CanvasAssignment.external_tool_tag_attributes := None;
     CanvasAssignment.rubric := None;
     CanvasAssignment.use_rubric_for_grading := false;
     CanvasAssignment.published := true;
     CanvasAssignment.only_visible_to_overrides := false;
     CanvasAssignment.locked_for_user := false;
     CanvasAssignment.lock_explanation := None;
     CanvasAssignment.turnitin_enabled := false;
     CanvasAssignment.vericite_enabled := false;
     CanvasAssignment.submission_draft_status := None;
     CanvasAssignment.annotatable_attachment_id := None;
     CanvasAssignment.anonymize_students := false;
     CanvasAssignment.require_lockdown_browser := false |}.

Definition sampleResult (id : Z) (name : jsstring) (due_at : option jsstring)
  : AssignmentWithCourse :=
  {| assignment := sampleAssignment id name due_at;
     courseName := js "Biology";
     courseId := 1 |}.

Definition okResponse {T : Type} (value : T) : Response T :=
  {| ok := true; status := 200; text_body := []; json := inr value |}.

Definition errorResponse {T : Type} (status : Z) (body : jsstring) : Response T :=
  {| ok := false; status := status; text_body := body;
     json := inl (mkError (js "Unexpected token in JSON")) |}.

Definition sampleCourses : list CanvasCourse.t :=
  [ {| CanvasCourse.id := 1; CanvasCourse.name := js "Biology";
       CanvasCourse.term := None |};
    {| CanvasCourse.id := 2; CanvasCourse.name := js "Chemistry";
       CanvasCourse.term := None |} ].

(** Two courses; the assignments of course 1 are an essay due on 2024-03-01,
    a reading without due date and a quiz due on 2024-01-01; the request for
    the assignments of any other course is answered with status 500. *)
Definition sampleWorld : World :=
  {| canvasApiToken := Some (js "token");
     canvasDomain := Some (js "canvas.example.edu");
     fetchCourses := fun _ => inr (okResponse sampleCourses);
     fetchCourse := fun _ => inr (errorResponse 404 (js "Not Found"));
     fetchAssignments := fun url =>
       if startsWith url (js "https://canvas.example.edu/api/v1/courses/1/")
       then inr (okResponse
                   [ sampleAssignment 1 (js "Essay") (Some (js "2024-03-01"));
                     sampleAssignment 2 (js "Reading") None;
                     sampleAssignment 3 (js "Quiz") (Some (js "2024-01-01")) ])
       else inr (errorResponse 500 (js "Internal Server Error"));
     fetchAssignment := fun _ => inr (errorResponse 404 (js "Not Found"));
     fetchDashboardCards := fun _ => inr (errorResponse 404 (js "Not Found")) |}.

(** The same world without credentials. *)
Definition unconfiguredWorld : World :=
  {| canvasApiToken := None;
     canvasDomain := None;
     fetchCourses := fetchCourses sampleWorld;
     fetchCourse := fetchCourse sampleWorld;
     fetchAssignments := fetchAssignments sampleWorld;
     fetchAssignment := fetchAssignment sampleWorld;
     fetchDashboardCards := fetchDashboardCards sampleWorld |}.

Definition searchEverything : SearchArgs.t :=
  {| SearchArgs.query := None;
     SearchArgs.dueBefore := None;
     SearchArgs.dueAfter := None;
     SearchArgs.includeCompleted := false;
     SearchArgs.courseId := None |}.

(** An assignment with three allowed attempts, a lock date, a rubric of one
    criterion and a plain-text description, and the world that serves it. *)
Definition detailedAssignment : CanvasAssignment.t :=
  {| CanvasAssignment.id := 7;
     CanvasAssignment.name := js "Lab report";
     CanvasAssignment.description := Some (js "Budget: $5 per group.");
     CanvasAssignment.due_at := Some (js "2024-03-01T23:59:59Z");
     CanvasAssignment.points_possible := 20;
     CanvasAssignment.submission_types := Some [js "online_upload"];
     CanvasAssignment.allowed_extensions := Some [js "pdf"; js "docx"];
     CanvasAssignment.allowed_attempts := Some 3;
     CanvasAssignment.grading_type := js "Letter_Grade";
     CanvasAssignment.lock_at := Some (js "2024-03-08T23:59:59Z");
     CanvasAssignment.unlock_at := None;
     CanvasAssignment.has_group_assignment := true;
     CanvasAssignment.group_category_id := Some 4;
     CanvasAssignment.peer_reviews := false;
     CanvasAssignment.word_count := None;
     CanvasAssignment.external_tool_tag_attributes := None;
     CanvasAssignment.rubric :=
       Some [ {| Rubric.id := js "c1"; Rubric.points := 10;
                 Rubric.description := js "Method";
                 Rubric.long_description := None |} ];
     CanvasAssignment.use_rubric_for_grading := true;
     CanvasAssignment.published := true;
     CanvasAssignment.only_visible_to_overrides := false;
     CanvasAssignment.locked_for_user := true;
     CanvasAssignment.lock_explanation := None;
     CanvasAssignment.turnitin_enabled := false;
     CanvasAssignment.vericite_enabled := false;
     CanvasAssignment.submission_draft_status := None;
     CanvasAssignment.annotatable_attachment_id := None;
     CanvasAssignment.anonymize_students := false;
     CanvasAssignment.require_lockdown_browser := true |}.

Definition detailWorld : World :=
  {| canvasApiToken := canvasApiToken sampleWorld;
     canvasDomain := canvasDomain sampleWorld;
     fetchCourses := fetchCourses sampleWorld;
     fetchCourse := fetchCourse sampleWorld;
     fetchAssignments := fetchAssignments sampleWorld;
     fetchAssignment := fun url =>
       if jsstring_eqb url (js "https://canvas.example.edu/api/v1/courses/1/assignments/7")
       then inr (okResponse detailedAssignment)
       else inr (errorResponse 404 (js "Not Found"));
     fetchDashboardCards := fetchDashboardCards sampleWorld |}.

(** [a] with another description. *)
Definition withDescription (a : CanvasAssignment.t) (description : option jsstring)
  : CanvasAssignment.t :=
  {| CanvasAssignment.id := CanvasAssignment.id a;
     CanvasAssignment.name := CanvasAssignment.name a;
     CanvasAssignment.description := description;
     CanvasAssignment.due_at := CanvasAssignment.due_at a;
     CanvasAssignment.points_possible := CanvasAssignment.points_possible a;
     CanvasAssignment.submission_types := CanvasAssignment.submission_types a;
     CanvasAssignment.allowed_extensions := CanvasAssignment.allowed_extensions a;
     CanvasAssignment.allowed_attempts := CanvasAssignment.allowed_attempts a;
     CanvasAssignment.grading_type := CanvasAssignment.grading_type a;
     CanvasAssignment.lock_at := CanvasAssignment.lock_at a;
     CanvasAssignment.unlock_at := CanvasAssignment.unlock_at a;
     CanvasAssignment.has_group_assignment := CanvasAssignment.has_group_assignment a;
     CanvasAssignment.group_category_id := CanvasAssignment.group_category_id a;
     CanvasAssignment.peer_reviews := CanvasAssignment.peer_reviews a;
     CanvasAssignment.word_count := CanvasAssignment.word_count a;
     CanvasAssignment.external_tool_tag_attributes := CanvasAssignment.external_tool_tag_attributes a;
     CanvasAssignment.rubric := CanvasAssignment.rubric a;
     CanvasAssignment.use_rubric_for_grading := CanvasAssignment.use_rubric_for_grading a;
     CanvasAssignment.published := CanvasAssignment.published a;
     CanvasAssignment.only_visible_to_overrides := CanvasAssignment.only_visible_to_overrides a;
     CanvasAssignment.locked_for_user := CanvasAssignment.locked_for_user a;
     CanvasAssignment.lock_explanation := CanvasAssignment.lock_explanation a;
     CanvasAssignment.turnitin_enabled := CanvasAssignment.turnitin_enabled a;
     CanvasAssignment.vericite_enabled := CanvasAssignment.vericite_enabled a;
     CanvasAssignment.submission_draft_status := CanvasAssignment.submission_draft_status a;
     CanvasAssignment.annotatable_attachment_id := CanvasAssignment.annotatable_attachment_id a;
     CanvasAssignment.anonymize_students := CanvasAssignment.anonymize_students a;
     CanvasAssignment.require_lockdown_browser := CanvasAssignment.require_lockdown_browser a |}.

(** A description with a link, and the document a parser makes of it. *)
Definition linkedHtml : jsstring :=
  js "See <a href='https://example.edu/syllabus'>the syllabus</a> first.".

Definition linkedDocument : Document :=
  {| body := [ Text (js "See ");
               Element (js "a") [(js "href", js "https://example.edu/syllabus")]
                 [Text (js "the syllabus")];
               Text (js " first.") ] |}.

(** The reference platform with a parser that knows the sample description
    and takes every other input for text. *)
Definition linkedPlatform : Platform :=
  Build_Platform
    (fun html => if jsstring_eqb html linkedHtml then linkedDocument else textBody html)
    (@toLowerCase Reference.platform) (@toLowerCase_empty Reference.platform)
    (@LocalTZA Reference.platform) (@LocalTZA_range Reference.platform)
    (@Date_parse Reference.platform) (@toLocale Reference.platform)
    (@toISOString Reference.platform) (@formEncode Reference.platform).

Definition linkedAssignment : CanvasAssignment.t :=
  withDescription (sampleAssignment 8 (js "Reading log") None) (Some linkedHtml).

(** [args] with another query. *)
Definition withQuery (args : SearchArgs.t) (query : option jsstring) : SearchArgs.t :=
  {| SearchArgs.query := query;
     SearchArgs.dueBefore := SearchArgs.dueBefore args;
     SearchArgs.dueAfter := SearchArgs.dueAfter args;
     SearchArgs.includeCompleted := SearchArgs.includeCompleted args;
     SearchArgs.courseId := SearchArgs.courseId args |}.

(** [args] with another value of [includeCompleted]. *)
Definition withIncludeCompleted (args : SearchArgs.t) (includeCompleted : bool)
  : SearchArgs.t :=
  {| SearchArgs.query := SearchArgs.query args;
     SearchArgs.dueBefore := SearchArgs.dueBefore args;
     SearchArgs.dueAfter := SearchArgs.dueAfter args;
     SearchArgs.includeCompleted := includeCompleted;
     SearchArgs.courseId := SearchArgs.courseId args |}.

(** [args] with another [courseId]. *)
Definition withCourseId (args : SearchArgs.t) (courseId : option IdArg) : SearchArgs.t :=
  {| SearchArgs.query := SearchArgs.query args;
     SearchArgs.dueBefore := SearchArgs.dueBefore args;
     SearchArgs.dueAfter := SearchArgs.dueAfter args;
     SearchArgs.includeCompleted := SearchArgs.includeCompleted args;
     SearchArgs.courseId := courseId |}.

(* ===================================================================== *)
(** * Predicates used in the statements                                   *)
(* ===================================================================== *)

(** A dollar sign with a digit behind it occurs in [s]. *)
Fixpoint hasDollarDigit (s : jsstring) : bool :=
  match s with
  | [] => false
  | c :: r => ((c =? DOLLAR)%N && startsWithDigit r) || hasDollarDigit r
  end.

(** Escaped output: wherever a dollar sign stands before a digit, a backslash
    stands before the dollar sign.  [prev] is the code unit before [s]. *)
Fixpoint dollarsEscaped (prev : N) (s : jsstring) : bool :=
  match s with
  | [] => true
  | c :: r =>
      (negb ((c =? DOLLAR)%N && startsWithDigit r) || (prev =? BACKSLASH)%N)
      && dollarsEscaped c r
  end.

(** Three line feeds in a row occur in [s]. *)
Definition hasTripleLF (s : jsstring) : bool := includes s [LF; LF; LF].

(** Two keys are equivalent under a preorder [leK], and two elements are
    in the order of their keys. *)
Definition eqK {K : Type} (leK : K -> K -> bool) (a b : K) : bool :=
  leK a b && leK b a.
Definition keyOrdered {A K : Type} (key : A -> K) (leK : K -> K -> bool) (a b : A)
  : Prop :=
  leK (key a) (key b) = true.

(** The order of due dates: a time, or no due date, which comes last. *)
Definition leDue (k1 k2 : option Z) : bool :=
  match k1, k2 with
  | Some x, Some y => x <=? y
  | _, None => true
  | None, Some _ => false
  end.


(** The inverse of the dollar escape: a backslash that stands before a
    dollar sign and a digit is taken away. *)
Fixpoint unescapeDollar (s : jsstring) : jsstring :=
  match s with
  | [] => []
  | c :: r =>
      match r with
      | d :: r' =>
          if (c =? BACKSLASH)%N && (d =? DOLLAR)%N && startsWithDigit r'
          then unescapeDollar r
          else c :: unescapeDollar r
      | [] => [c]
      end
  end.

(** The tags [processNode] has a case for. *)
Definition markdownTags : list string :=
  ["h1"; "h2"; "h3"; "strong"; "b"; "em"; "i"; "ul"; "ol"; "li"; "p"; "br"; "a"]%string.

Definition isMarkdownTag (tag : jsstring) : bool :=
  existsb (tagIs tag) markdownTags.

(** [s] neither starts nor ends with white space. *)
Definition startsWithWhiteSpace (s : jsstring) : bool :=
  match s with
  | c :: _ => isWhiteSpace c
  | [] => false
  end.

Definition noOuterWhiteSpace (s : jsstring) : bool :=
  negb (startsWithWhiteSpace s) && negb (startsWithWhiteSpace (rev s)).

(** An assignment without due date: [!a.due_at]. *)
Definition undated (a : AssignmentWithCourse) : bool :=
  negb (truthy (CanvasAssignment.due_at (assignment a))).

(** No assignment without due date stands before one that has a due date. *)
Fixpoint undatedLast (l : list AssignmentWithCourse) : bool :=
  match l with
  | [] => true
  | a :: r => (if undated a then forallb undated r else true) && undatedLast r
  end.

(** A node is an anchor or has an anchor below it. *)
Fixpoint containsAnchor (n : Node) : bool :=
  match n with
  | Element tag _ cs => tagIs tag "a" || existsb containsAnchor cs
  | _ => false
  end.


Section StatementPredicates.
Context {P : Platform}.
Variable w : World.

(** The description of an assignment is set and, once parsed, holds an
    anchor. *)
Definition descriptionHasAnchor (a : CanvasAssignment.t) : bool :=
  truthy (CanvasAssignment.description a)
  && existsb containsAnchor
       (body (JSDOM (orElse (CanvasAssignment.description a) []))).

(** The bounds as [isDateInRange] compares them: the end of the day of
    [before] and the start of the day of [after], in local time. *)
Definition notAfterBound (dueDate : Date) (before : option jsstring) : Prop :=
  forall beforeDate, parseDate before = Some beforeDate ->
    tv_gtb (getTime dueDate) (getTime (setHours beforeDate 23 59 59 999)) = false.

Definition notBeforeBound (dueDate : Date) (after : option jsstring) : Prop :=
  forall afterDate, parseDate after = Some afterDate ->
    tv_ltb (getTime dueDate) (getTime (setHours afterDate 0 0 0 0)) = false.

(** The due date an assignment is sorted by: the time its [due_at] parses
    to, or none when [due_at] is null or empty. *)
Definition dueKey (a : AssignmentWithCourse) : option Z :=
  let due := CanvasAssignment.due_at (assignment a) in
  if truthy due then
    match parseDate due with
    | Some d => match getTime d with Ms t => Some t | NaN => None end
    | None => None
    end
  else None.

(** The due date of [a], if it has one, parses. *)
Definition dueParses (a : AssignmentWithCourse) : bool :=
  let due := CanvasAssignment.due_at (assignment a) in
  negb (truthy due) || match parseDate due with Some _ => true | None => false end.

(** The text filter in the words of the specification: some term of the
    query occurs in the lower-cased title or in the lower-cased plain text of
    the description. *)
Definition anyTermOccurs (normalizedQuery : jsstring) (a : CanvasAssignment.t) : bool :=
  existsb (fun term =>
             includes (toLowerCase (CanvasAssignment.name a)) term
             || includes (toLowerCase (htmlToPlainText (CanvasAssignment.description a)))
                         term)
          (searchTerms normalizedQuery).

Variables (isWildcard : bool) (normalizedQuery : jsstring).
Variables (dueBefore dueAfter : option jsstring).

(** What one course adds to the results: its matches, or nothing when its
    [try] block threw. *)
Definition courseMatches (course : CanvasCourse.t) : list AssignmentWithCourse :=
  match outcomeOf (searchCourse w isWildcard normalizedQuery dueBefore dueAfter course) with
  | inr found => found
  | inl _ => []
  end.

(** The line the [catch] block writes for a course. *)
Definition failureLine (course : CanvasCourse.t) (error : Error) : jsstring :=
  js "Error searching in course " ++ showZ (CanvasCourse.id course)
  ++ js ": " ++ message error.

Definition failureLines (course : CanvasCourse.t) : list jsstring :=
  match outcomeOf (searchCourse w isWildcard normalizedQuery dueBefore dueAfter course) with
  | inr _ => []
  | inl error => [failureLine course error]
  end.

End StatementPredicates.

Unset Implicit Arguments.

(* ===================================================================== *)
(** * Strings: lemmas                                                     *)
(* ===================================================================== *)

Lemma jsstring_eqb_eq (a b : jsstring) : jsstring_eqb a b = true <-> a = b.
Proof.
  unfold jsstring_eqb. destruct (list_eq_dec N.eq_dec a b); split; congruence.
Qed.

Lemma jsstring_eqb_refl (a : jsstring) : jsstring_eqb a a = true.
Proof. apply jsstring_eqb_eq. reflexivity. Qed.

Lemma join_nil_single (x : jsstring) : join [] [x] = x.
Proof. reflexivity. Qed.

Lemma join_nil_concat (l : list jsstring) : join [] l = concat l.
Proof.
  induction l as [|x r IH]; [reflexivity|].
  destruct r as [|y r']; simpl in *.
  - now rewrite app_nil_r.
  - now rewrite IH.
Qed.

Lemma isHtmlSpace_isWhiteSpace (c : N) : isHtmlSpace c = true -> isWhiteSpace c = true.
Proof.
  unfold isHtmlSpace, isWhiteSpace. intros H.
  repeat rewrite orb_true_iff in H.
  repeat rewrite N.eqb_eq in H.
  destruct H as [[[[H|H]|H]|H]|H]; subst c; reflexivity.
Qed.

Lemma trimStart_htmlSpace (s : jsstring) :
  trimStart (dropWhile isHtmlSpace s) = trimStart s.
Proof.
  unfold trimStart. induction s as [|c r IH]; [reflexivity|].
  simpl. destruct (isHtmlSpace c) eqn:Hc.
  - rewrite (isHtmlSpace_isWhiteSpace c Hc). exact IH.
  - reflexivity.
Qed.

Lemma trim_htmlSpace (s : jsstring) : trim (dropWhile isHtmlSpace s) = trim s.
Proof. unfold trim. now rewrite trimStart_htmlSpace. Qed.

Lemma dropWhile_all (p : N -> bool) (s : jsstring) :
  forallb p s = true -> dropWhile p s = [].
Proof.
  induction s as [|c r IH]; simpl; [reflexivity|].
  intros H. apply andb_true_iff in H as [Hc Hr]. rewrite Hc. auto.
Qed.

(** A string of white space trims to the empty string. *)
Lemma trim_all_whitespace (s : jsstring) :
  forallb isWhiteSpace s = true -> trim s = [].
Proof.
  intros H. unfold trim, trimStart. rewrite (dropWhile_all _ _ H). reflexivity.
Qed.

Lemma dropWhile_nil_trim (s : jsstring) :
  dropWhile isHtmlSpace s = [] -> trim s = [].
Proof.
  intros H. rewrite <- trim_htmlSpace, H. reflexivity.
Qed.

(** ** The dollar escape *)

(** The regular expression at work: a dollar sign and the digits behind it
    come out with a backslash in front, the digits unchanged. *)
Lemma escapeDollar_digits (ds r : jsstring) :
  forallb isDigit ds = true -> escapeDollar (ds ++ r) = ds ++ escapeDollar r.
Proof.
  induction ds as [|d ds IH]; simpl; [reflexivity|].
  intros H. apply andb_true_iff in H as [Hd Hds].
  replace (d =? DOLLAR)%N with false.
  - simpl. now rewrite IH.
  - symmetry. apply N.eqb_neq. intros ->. discriminate.
Qed.

Lemma escapeDollar_match (d : N) (ds r : jsstring) :
  forallb isDigit (d :: ds) = true ->
  escapeDollar (DOLLAR :: (d :: ds) ++ r)
  = BACKSLASH :: DOLLAR :: (d :: ds) ++ escapeDollar r.
Proof.
  intros H. change (escapeDollar (DOLLAR :: (d :: ds) ++ r))
    with (if (DOLLAR =? DOLLAR)%N && isDigit d
          then BACKSLASH :: DOLLAR :: escapeDollar ((d :: ds) ++ r)
          else DOLLAR :: escapeDollar ((d :: ds) ++ r)).
  pose proof H as H'. simpl in H'. apply andb_true_iff in H' as [Hd _].
  rewrite Hd. simpl. f_equal. f_equal. exact (escapeDollar_digits (d :: ds) r H).
Qed.

Lemma escapeDollar_id (s : jsstring) :
  hasDollarDigit s = false -> escapeDollar s = s.
Proof.
  induction s as [|c r IH]; simpl; [reflexivity|].
  intros H. apply orb_false_iff in H as [Hc Hr].
  rewrite Hc. now rewrite IH.
Qed.

Lemma hasDollarDigit_dropWhile (p : N -> bool) (s : jsstring) :
  hasDollarDigit s = false -> hasDollarDigit (dropWhile p s) = false.
Proof.
  induction s as [|c r IH]; simpl; [reflexivity|].
  intros H. destruct (p c).
  - apply orb_false_iff in H as [_ Hr]. auto.
  - exact H.
Qed.

(** ** Runs of line feeds *)

Lemma includes_cons_false (c : N) (s t : jsstring) :
  includes (c :: s) t = false -> includes s t = false.
Proof.
  simpl. intros H. apply orb_false_iff in H as [_ H]. exact H.
Qed.

Lemma includes_app_false (a b t : jsstring) :
  includes (a ++ b) t = false -> includes b t = false.
Proof.
  induction a as [|c a IH]; [trivial|].
  intros H. apply IH. exact (includes_cons_false _ _ _ H).
Qed.

Lemma collapseFrom_id (s : jsstring) : forall run : nat,
  (run <= 2)%nat ->
  hasTripleLF (repeat LF run ++ s) = false ->
  collapseFrom run s = s.
Proof.
  unfold hasTripleLF.
  induction s as [|c r IH]; intros run Hrun H; [reflexivity|].
  simpl. destruct (c =? LF)%N eqn:Hc.
  - apply N.eqb_eq in Hc. subst c.
    destruct run as [|[|[|run]]]; try lia.
    + f_equal. apply (IH 1%nat); [lia|exact H].
    + f_equal. apply (IH 2%nat); [lia|exact H].
    + unfold LF in H. simpl in H. discriminate.
  - f_equal. apply (IH 0%nat); [lia|].
    simpl. apply (includes_app_false (repeat LF run ++ [c]) r).
    rewrite <- app_assoc. exact H.
Qed.

Lemma collapseNewlines_id (s : jsstring) :
  hasTripleLF s = false -> collapseNewlines s = s.
Proof. intros H. apply collapseFrom_id; [lia|exact H]. Qed.

Lemma startsWithDigit_escapeDollar (s : jsstring) :
  startsWithDigit (escapeDollar s) = startsWithDigit s.
Proof.
  destruct s as [|c r]; [reflexivity|]. simpl.
  destruct ((c =? DOLLAR)%N && startsWithDigit r) eqn:H; [|reflexivity].
  apply andb_true_iff in H as [H _]. apply N.eqb_eq in H. subst c. reflexivity.
Qed.

Lemma escapeDollar_escaped (s : jsstring) : forall prev : N,
  dollarsEscaped prev (escapeDollar s) = true.
Proof.
  induction s as [|c r IH]; intros prev; [reflexivity|].
  simpl. destruct ((c =? DOLLAR)%N && startsWithDigit r) eqn:H.
  - simpl. rewrite IH, orb_true_r. reflexivity.
  - simpl. rewrite startsWithDigit_escapeDollar, H, IH. reflexivity.
Qed.

(* ===================================================================== *)
(** * The rendering pipeline: theorems                                    *)
(* ===================================================================== *)

(** The plain text of every document is escaped: each dollar sign that
    stands before a digit has a backslash in front. *)
Lemma plainTextOf_escaped (document : Document) :
  dollarsEscaped 0 (plainTextOf document) = true.
Proof. apply escapeDollar_escaped. Qed.

(** C1 (the code departs from it): on the document of
    [<a href="x">$1</a>], the plain text and the Markdown rendering write the
    dollar sign as [\$1], whereas the link that [extractLinks] returns keeps
    the text [$1] as it is: the third conversion does not escape. *)
Theorem extractLinks_leaves_dollar_unescaped :
  let document :=
    {| body := [Element (js "a") [(js "href", js "x")] [Text (js "$1")]] |} in
  plainTextOf document = js "\$1"
  /\ markdownOf document = js "[\$1](x)"
  /\ linksOf document = [ {| text := js "$1"; href := js "x" |} ].
Proof. vm_compute. repeat split. Qed.

(** The Markdown rendering escapes text node by text node: a dollar sign and
    a digit that meet only in the output, here from [$<span>1</span>], are
    written without a backslash, where the plain text has one. *)
Example markdownOf_dollar_across_nodes :
  let document :=
    {| body := [Text (js "$"); Element (js "span") [] [Text (js "1")]] |} in
  markdownOf document = js "$1" /\ plainTextOf document = js "\$1".
Proof. vm_compute. split; reflexivity. Qed.

(** C7, as the claim states it, fails: the text [Bring $5] has no tag and
    nothing to trim, and its Markdown rendering is [Bring \$5]. *)
Lemma convertHtmlToMarkdown_plain_text_counterexample :
  @convertHtmlToMarkdown Reference.platform (js "Bring $5") = js "Bring \$5"
  /\ trim (js "Bring $5") = js "Bring $5".
Proof. vm_compute. split; reflexivity. Qed.

(** C7, amended: for a text without markup (the parser hands back the text
    as one text node) in which no dollar sign stands before a digit, the
    Markdown rendering is the trimmed text with every run of three or more
    line feeds collapsed to two; it is the trimmed text itself when that has
    no such run. *)
Theorem convertHtmlToMarkdown_plain_text {P : Platform} (html : jsstring) :
  JSDOM html = textBody html ->
  hasDollarDigit html = false ->
  convertHtmlToMarkdown html = collapseNewlines (trim html)
  /\ (hasTripleLF (trim html) = false -> convertHtmlToMarkdown html = trim html).
Proof.
  intros Hdom Hdollar.
  assert (E : convertHtmlToMarkdown html = collapseNewlines (trim html)).
  { unfold convertHtmlToMarkdown, markdownOf, textBody in *. rewrite Hdom.
    destruct (dropWhile isHtmlSpace html) as [|c t] eqn:Hdrop.
    - simpl. now rewrite (dropWhile_nil_trim html Hdrop).
    - cbn [body map processNode]. rewrite join_nil_single.
      rewrite escapeDollar_id.
      + now rewrite <- Hdrop, trim_htmlSpace.
      + rewrite <- Hdrop. now apply hasDollarDigit_dropWhile. }
  split; [exact E|].
  intros Hrun. rewrite E. now apply collapseNewlines_id.
Qed.

(** C7, amended, on a text with a run of four line feeds and white space at
    both ends. *)
Lemma convertHtmlToMarkdown_plain_text_witness :
  let html := js "  Read chapter 2." ++ [LF; LF; LF; LF] ++ js "Then write a summary. " in
  @convertHtmlToMarkdown Reference.platform html = collapseNewlines (trim html)
  /\ (hasTripleLF (trim html) = false ->
      @convertHtmlToMarkdown Reference.platform html = trim html).
Proof.
  apply (@convertHtmlToMarkdown_plain_text Reference.platform); reflexivity.
Defined.

(* ===================================================================== *)
(** * Date utilities: theorems                                            *)
(* ===================================================================== *)

Lemma isDigit_range (c : N) : isDigit c = true -> (48 <= c <= 57)%N.
Proof.
  unfold isDigit. intros H. apply andb_true_iff in H as [H1 H2].
  apply N.leb_le in H1, H2. lia.
Qed.

Lemma isDigit_not_hyphen (c : N) : isDigit c = true -> (c =? 45)%N = false.
Proof. intros H. apply isDigit_range in H. apply N.eqb_neq. lia. Qed.

Lemma digitValue_range (c : N) : isDigit c = true -> 0 <= digitValue c <= 9.
Proof. intros H. apply isDigit_range in H. unfold digitValue. lia. Qed.

Lemma DaysInYear_range (y : Z) : 365 <= DaysInYear y <= 366.
Proof.
  unfold DaysInYear.
  destruct (negb (y mod 4 =? 0)), (negb (y mod 100 =? 0)), (negb (y mod 400 =? 0)); lia.
Qed.

Lemma daysBeforeMonth_range (leap mn : Z) :
  0 <= leap <= 1 -> 0 <= daysBeforeMonth leap mn <= 335.
Proof.
  intros H. unfold daysBeforeMonth.
  destruct mn as [|p|p]; try lia.
  do 4 (destruct p as [p|p|]; try lia).
Qed.

Lemma MakeDay_range (year month date : Z) :
  0 <= year <= 9999 -> -1 <= month <= 98 -> 0 <= date <= 99 ->
  -800000 <= MakeDay year month date <= 4000000.
Proof.
  intros Hy Hm Hd. unfold MakeDay, DayFromYear.
  pose proof (DaysInYear_range (year + month / 12)) as Hl.
  pose proof (daysBeforeMonth_range (DaysInYear (year + month / 12) - 365) (month mod 12)) as Hb.
  Z.div_mod_to_equations. lia.
Qed.

Section DateTheorems.
Context {P : Platform}.

Lemma TimeClip_UTC (t : Z) :
  -8000000000000000 <= t <= 8000000000000000 -> TimeClip (UTC t) = Ms (UTC t).
Proof.
  intros H. unfold TimeClip, UTC.
  pose proof (LocalTZA_range t false) as Hz. unfold msPerDay in Hz.
  destruct (Z.abs (t - LocalTZA t false) >? 8640000000000000) eqn:E; [|reflexivity].
  apply Z.gtb_lt in E. lia.
Qed.

(** A date of four, two and two digits always yields a date: the numbers go
    to [new Date(year, month - 1, day)], which carries a month or a day out of
    range into the next months, and whose time value is never [NaN]. *)
Lemma parseDate_bare_date (y1 y2 y3 y4 m1 m2 d1 d2 : N) :
  forallb isDigit [y1; y2; y3; y4; m1; m2; d1; d2] = true ->
  let year := Number [y1; y2; y3; y4] in
  let month := Number [m1; m2] in
  let day := Number [d1; d2] in
  let yr := if (0 <=? year) && (year <=? 99) then 1900 + year else year in
  parseDate (Some [y1; y2; y3; y4; 45%N; m1; m2; 45%N; d1; d2])
  = Some {| getTime := Ms (UTC (MakeDate (MakeDay yr (month - 1) day) 0)) |}.
Proof.
  intros H. simpl in H.
  repeat (apply andb_true_iff in H; destruct H as [? H]). clear H.
  intros year month day yr.
  assert (Hyear : 0 <= year <= 9999).
  { unfold year, Number. cbn [fold_left].
    repeat match goal with
           | Hd : isDigit ?c = true |- _ => apply digitValue_range in Hd
           end. lia. }
  assert (Hmonth : 0 <= month <= 99).
  { unfold month, Number. cbn [fold_left].
    repeat match goal with
           | Hd : isDigit ?c = true |- _ => apply digitValue_range in Hd
           end. lia. }
  assert (Hday : 0 <= day <= 99).
  { unfold day, Number. cbn [fold_left].
    repeat match goal with
           | Hd : isDigit ?c = true |- _ => apply digitValue_range in Hd
           end. lia. }
  assert (Hyr : 0 <= yr <= 9999).
  { unfold yr. destruct ((0 <=? year) && (year <=? 99)) eqn:E; [|lia].
    apply andb_true_iff in E as [_ E]. apply Z.leb_le in E. lia. }
  unfold parseDate. cbn [truthy negb orElse isBareDate splitOn].
  repeat match goal with
         | Hd : isDigit ?c = true |- _ =>
             rewrite ?Hd, ?(isDigit_not_hyphen c Hd); clear Hd
         end.
  cbn [N.eqb Pos.eqb andb rev app map].
  fold year month day.
  unfold validOrNull, Date_ymd. fold yr. cbn [getTime].
  change (MakeTime 0 0 0 0) with 0.
  rewrite TimeClip_UTC; [reflexivity|].
  assert (Hm1 : -1 <= month - 1 <= 98) by lia.
  pose proof (MakeDay_range yr (month - 1) day Hyr Hm1 Hday) as Hr.
  unfold MakeDate. generalize dependent (MakeDay yr (month - 1) day).
  unfold msPerDay. intros; lia.
Qed.

(** C3 (the code departs from it): the thirtieth of February is not a
    calendar date, and [parseDate] does not return none for it; on every
    platform it returns the local midnight of the first of March 2024. *)
Theorem parseDate_rolls_over_invalid_calendar_date :
  parseDate (Some (js "2024-02-30"))
  = Some {| getTime := Ms (UTC 1709251200000) |}.
Proof. exact (parseDate_bare_date 50 48 50 52 48 50 51 48 eq_refl). Qed.

Lemma parseDate_falsy (d : option jsstring) : truthy d = false -> parseDate d = None.
Proof. intros H. unfold parseDate. now rewrite H. Qed.

Lemma parseDate_truthy (d : option jsstring) (x : Date) :
  parseDate d = Some x -> truthy d = true.
Proof.
  intros H. destruct (truthy d) eqn:E; [reflexivity|].
  rewrite (parseDate_falsy d E) in H. discriminate.
Qed.

Lemma tv_gtb_irrefl (a : timevalue) : tv_gtb a a = false.
Proof. destruct a; simpl; [reflexivity|]. rewrite Z.gtb_ltb. apply Z.ltb_irrefl. Qed.

Lemma tv_ltb_irrefl (a : timevalue) : tv_ltb a a = false.
Proof. destruct a; simpl; [reflexivity|apply Z.ltb_irrefl]. Qed.

Lemma isDateInRange_parsed (date before after : option jsstring) (dueDate : Date) :
  parseDate date = Some dueDate ->
  (isDateInRange date before after = true
   <-> notAfterBound dueDate before /\ notBeforeBound dueDate after).
Proof.
  intros Hdue. unfold isDateInRange, notAfterBound, notBeforeBound.
  rewrite (parseDate_truthy date dueDate Hdue), Hdue. cbn [negb].
  destruct (truthy before) eqn:Tb; [destruct (parseDate before) as [b|] eqn:Pb|];
    (destruct (truthy after) eqn:Ta; [destruct (parseDate after) as [a|] eqn:Pa|]);
    try rewrite (parseDate_falsy before Tb);
    try rewrite (parseDate_falsy after Ta);
    try destruct (tv_gtb (getTime dueDate) (getTime (setHours b 23 59 59 999))) eqn:G;
    try destruct (tv_ltb (getTime dueDate) (getTime (setHours a 0 0 0 0))) eqn:L;
    cbn [negb]; split;
    try (intros _; split; intros x Hx; inversion Hx; subst; assumption);
    try discriminate; try reflexivity;
    intros [H1 H2];
    try (specialize (H1 b eq_refl); congruence);
    try (specialize (H2 a eq_refl); congruence).
Qed.

(** C2: [isDateInRange] answers true for a date that is absent or does not
    parse; for a date that parses, it answers true exactly when the date is
    not after 23:59:59.999 local time of the day of [before] and not before
    00:00:00.000 local time of the day of [after] (a bound that is absent or
    does not parse excludes nothing); so a date at the very end of the
    [before] day, or at the very start of the [after] day, is in range. *)
Theorem isDateInRange_inclusive_bounds (date before after : option jsstring) :
  (truthy date = false \/ parseDate date = None ->
   isDateInRange date before after = true)
  /\ (forall dueDate, parseDate date = Some dueDate ->
        (isDateInRange date before after = true
         <-> notAfterBound dueDate before /\ notBeforeBound dueDate after))
  /\ (forall dueDate beforeDate,
        parseDate date = Some dueDate -> parseDate before = Some beforeDate ->
        getTime dueDate = getTime (setHours beforeDate 23 59 59 999) ->
        isDateInRange date before None = true)
  /\ (forall dueDate afterDate,
        parseDate date = Some dueDate -> parseDate after = Some afterDate ->
        getTime dueDate = getTime (setHours afterDate 0 0 0 0) ->
        isDateInRange date None after = true).
Proof.
  split; [|split; [|split]].
  - intros [H|H]; unfold isDateInRange.
    + now rewrite H.
    + rewrite H. now destruct (truthy date).
  - intros dueDate H. apply (isDateInRange_parsed date before after dueDate H).
  - intros dueDate beforeDate Hd Hb Heq.
    apply (isDateInRange_parsed date before None dueDate Hd). split.
    + intros b' Hb'. rewrite Hb in Hb'. inversion Hb'; subst.
      rewrite Heq. apply tv_gtb_irrefl.
    + intros a Ha. discriminate.
  - intros dueDate afterDate Hd Ha Heq.
    apply (isDateInRange_parsed date None after dueDate Hd). split.
    + intros b Hb. discriminate.
    + intros a' Ha'. rewrite Ha in Ha'. inversion Ha'; subst.
      rewrite Heq. apply tv_ltb_irrefl.
Qed.

(** In a time zone of constant offset, [setHours] keeps the local day and
    sets the local time of day: 23:59:59.999 is the last millisecond of the
    day, 00:00:00.000 its first. *)
Lemma setHours_local_time (offset : Z) (d : Date) (tv hour min sec ms : Z) :
  (forall t isUTC, LocalTZA t isUTC = offset) ->
  getTime d = Ms tv ->
  Z.abs (MakeDate (Day (LocalTime tv)) (MakeTime hour min sec ms) - offset)
    <= 8640000000000000 ->
  exists u,
    getTime (setHours d hour min sec ms) = Ms u
    /\ LocalTime u = Day (LocalTime tv) * msPerDay + MakeTime hour min sec ms.
Proof.
  intros Hzone Hd Hclip. unfold setHours. rewrite Hd. cbn [getTime].
  unfold TimeClip, UTC. rewrite Hzone.
  destruct (Z.gtb_spec
              (Z.abs (MakeDate (Day (LocalTime tv)) (MakeTime hour min sec ms) - offset))
              8640000000000000) as [Hgt|Hle]; [lia|].
  eexists. split; [reflexivity|].
  unfold LocalTime at 1. rewrite Hzone. unfold MakeDate. lia.
Qed.

(** On the reference platform: with [before] = 2024-03-01, an assignment due
    at 23:59:59 of that day is in range, one due at 00:00:00 of the next day
    is not; with [after] = 2024-03-01, an assignment due at 00:00:00 of that
    day is in range, one due a second earlier is not. *)
Example isDateInRange_boundary_days :
  @isDateInRange Reference.platform
     (Some (js "2024-03-01T23:59:59Z")) (Some (js "2024-03-01")) None = true
  /\ @isDateInRange Reference.platform
       (Some (js "2024-03-02T00:00:00Z")) (Some (js "2024-03-01")) None = false
  /\ @isDateInRange Reference.platform
       (Some (js "2024-03-01T00:00:00Z")) None (Some (js "2024-03-01")) = true
  /\ @isDateInRange Reference.platform
       (Some (js "2024-02-29T23:59:59Z")) None (Some (js "2024-03-01")) = false
  /\ @isDateInRange Reference.platform
       (Some (js "next week")) (Some (js "2024-03-01")) (Some (js "2024-03-01")) = true
  /\ @isDateInRange Reference.platform
       None (Some (js "2024-03-01")) (Some (js "2024-03-01")) = true.
Proof. vm_compute. repeat split. Qed.

End DateTheorems.

(* ===================================================================== *)
(** * The sort: theorems                                                  *)
(* ===================================================================== *)

(** [sort] under a comparator that agrees, on the elements at hand, with a
    total preorder of their keys: the result is a permutation, it is in
    ascending order of the keys, and elements whose keys are equivalent keep
    their order. *)
Section StableSort.
Variables (A K : Type) (compareFn : A -> A -> Z) (key : A -> K).
Variable leK : K -> K -> bool.
Variable good : A -> Prop.

Local Abbreviation keyOrdered := (keyOrdered key leK).
Local Abbreviation eqK := (eqK leK).

Hypothesis leK_total : forall a b, leK a b = true \/ leK b a = true.
Hypothesis leK_trans : forall a b c, leK a b = true -> leK b c = true -> leK a c = true.
Hypothesis compare_key : forall a b, good a -> good b ->
  (compareFn a b <=? 0) = leK (key a) (key b).

Lemma insertSorted_perm (x : A) (l : list A) :
  Permutation (x :: l) (insertSorted compareFn x l).
Proof.
  induction l as [|y r IH]; simpl; [apply Permutation_refl|].
  destruct (compareFn x y <=? 0); [apply Permutation_refl|].
  eapply perm_trans; [apply perm_swap|]. now apply perm_skip.
Qed.

Lemma sort_perm (l : list A) : Permutation l (sort compareFn l).
Proof.
  induction l as [|x r IH]; simpl; [constructor|].
  eapply perm_trans; [apply perm_skip, IH|apply insertSorted_perm].
Qed.

Lemma sort_good (l : list A) : Forall good l -> Forall good (sort compareFn l).
Proof.
  intros H. apply Forall_forall. intros x Hx.
  eapply Forall_forall; [exact H|].
  eapply Permutation_in; [apply Permutation_sym, sort_perm|exact Hx].
Qed.

Lemma insertSorted_sorted (x : A) (l : list A) :
  good x -> Forall good l ->
  StronglySorted keyOrdered l -> StronglySorted keyOrdered (insertSorted compareFn x l).
Proof.
  intros Hx. induction l as [|y r IH]; intros Hg Hs; simpl.
  - constructor; constructor.
  - inversion Hg as [|? ? Hy Hr]; subst. inversion Hs as [|? ? Hsr Hall]; subst.
    destruct (compareFn x y <=? 0) eqn:E.
    + rewrite (compare_key x y Hx Hy) in E.
      constructor; [exact Hs|]. constructor; [exact E|].
      eapply Forall_impl; [|exact Hall].
      intros z Hz. unfold keyOrdered in *. eapply leK_trans; eassumption.
    + rewrite (compare_key x y Hx Hy) in E.
      constructor; [now apply IH|].
      eapply Permutation_Forall; [apply insertSorted_perm|].
      constructor; [|exact Hall].
      unfold keyOrdered. destruct (leK_total (key x) (key y)); congruence.
Qed.

Lemma sort_sorted (l : list A) :
  Forall good l -> StronglySorted keyOrdered (sort compareFn l).
Proof.
  induction l as [|x r IH]; intros Hg; simpl; [constructor|].
  inversion Hg; subst.
  apply insertSorted_sorted; auto using sort_good.
Qed.

Lemma insertSorted_stable (k : K) (x : A) (l : list A) :
  good x -> Forall good l ->
  filter (fun a => eqK (key a) k) (insertSorted compareFn x l)
  = filter (fun a => eqK (key a) k) (x :: l).
Proof.
  intros Hx. induction l as [|y r IH]; intros Hg; [reflexivity|].
  inversion Hg as [|? ? Hy Hr]; subst.
  cbn [insertSorted]. destruct (compareFn x y <=? 0) eqn:E; [reflexivity|].
  rewrite (compare_key x y Hx Hy) in E.
  cbn [filter] in *. rewrite (IH Hr).
  destruct (eqK (key y) k) eqn:Ey; [|reflexivity].
  destruct (eqK (key x) k) eqn:Ex; [|reflexivity].
  unfold eqK in Ex, Ey.
  apply andb_true_iff in Ex as [Ex _]. apply andb_true_iff in Ey as [_ Ey].
  rewrite (leK_trans _ _ _ Ex Ey) in E. discriminate.
Qed.

Lemma sort_stable (k : K) (l : list A) :
  Forall good l ->
  filter (fun a => eqK (key a) k) (sort compareFn l)
  = filter (fun a => eqK (key a) k) l.
Proof.
  induction l as [|x r IH]; intros Hg; [reflexivity|].
  inversion Hg; subst. cbn [sort].
  rewrite insertSorted_stable by auto using sort_good.
  cbn [filter]. now rewrite IH.
Qed.

End StableSort.

Lemma leDue_total (a b : option Z) : leDue a b = true \/ leDue b a = true.
Proof.
  destruct a as [x|], b as [y|]; simpl; auto.
  destruct (Z.leb_spec x y); [now left|right]. apply Z.leb_le. lia.
Qed.

Lemma leDue_trans (a b c : option Z) :
  leDue a b = true -> leDue b c = true -> leDue a c = true.
Proof.
  destruct a as [x|], b as [y|], c as [z|]; simpl; try congruence.
  rewrite !Z.leb_le. lia.
Qed.

Section SortTheorems.
Context {P : Platform}.

Lemma validOrNull_valid (d x : Date) :
  validOrNull d = Some x -> exists t, getTime x = Ms t.
Proof.
  unfold validOrNull. destruct (getTime d) as [|t] eqn:E; simpl; [discriminate|].
  intros H. inversion H; subst. now exists t.
Qed.

(** A date that [parseDate] returns is a valid date. *)
Lemma parseDate_valid (s : option jsstring) (x : Date) :
  parseDate s = Some x -> exists t, getTime x = Ms t.
Proof.
  unfold parseDate. destruct (negb (truthy s)); [discriminate|].
  destruct (isBareDate (orElse s [])).
  - destruct (map Number (splitOn 45 [] (orElse s []))) as [|y [|m [|d [|? ?]]]];
      try discriminate. apply validOrNull_valid.
  - apply validOrNull_valid.
Qed.

Lemma compareDue_key (a b : AssignmentWithCourse) :
  dueParses a = true -> dueParses b = true ->
  (compareDue a b <=? 0) = leDue (dueKey a) (dueKey b).
Proof.
  unfold dueParses, compareDue, dueKey.
  destruct (truthy (CanvasAssignment.due_at (assignment a))) eqn:Ta;
  destruct (truthy (CanvasAssignment.due_at (assignment b))) eqn:Tb;
  cbn [negb andb orb]; intros Ha Hb; try reflexivity.
  - destruct (parseDate (CanvasAssignment.due_at (assignment a))) as [da|] eqn:Pa;
      [|discriminate].
    destruct (parseDate (CanvasAssignment.due_at (assignment b))) as [db|] eqn:Pb;
      [|discriminate].
    destruct (parseDate_valid _ _ Pa) as [ta Ea].
    destruct (parseDate_valid _ _ Pb) as [tb Eb].
    rewrite Ea, Eb. simpl.
    destruct (Z.leb_spec (ta - tb) 0), (Z.leb_spec ta tb); try reflexivity; lia.
  - destruct (parseDate (CanvasAssignment.due_at (assignment a))) as [da|] eqn:Pa;
      [|discriminate].
    destruct (parseDate_valid _ _ Pa) as [ta Ea]. rewrite Ea. reflexivity.
  - destruct (parseDate (CanvasAssignment.due_at (assignment b))) as [db|] eqn:Pb;
      [|discriminate].
    destruct (parseDate_valid _ _ Pb) as [tb Eb]. rewrite Eb. reflexivity.
Qed.

(** C4, amended: when every due date that is present parses, the sort of the
    search results returns a permutation of them in ascending order of the
    parsed due dates, the assignments without a due date (null or empty)
    behind all the others, and assignments of equal due dates, or both
    without one, in the order in which they were met. *)
Theorem sortResults_stable_ascending (allResults : list AssignmentWithCourse) :
  Forall (fun a => dueParses a = true) allResults ->
  Permutation allResults (sortResults allResults)
  /\ StronglySorted (fun a b => leDue (dueKey a) (dueKey b) = true)
       (sortResults allResults)
  /\ (forall k : option Z,
        filter (fun a => eqK leDue (dueKey a) k) (sortResults allResults)
        = filter (fun a => eqK leDue (dueKey a) k) allResults).
Proof.
  intros Hg. unfold sortResults. split; [|split].
  - apply sort_perm.
  - exact (sort_sorted _ _ compareDue dueKey leDue _
             leDue_total leDue_trans compareDue_key _ Hg).
  - intros k.
    apply (sort_stable _ _ compareDue dueKey leDue _ leDue_trans compareDue_key k _ Hg).
Qed.

(** The example of the specification holds on every platform, whatever the
    time zone: the due dates 2024-03-01, none, 2024-01-01 sort to
    2024-01-01, 2024-03-01, none. *)
Lemma sortResults_specification_example :
  let march := sampleResult 1 (js "Essay") (Some (js "2024-03-01")) in
  let undated := sampleResult 2 (js "Reading") None in
  let january := sampleResult 3 (js "Quiz") (Some (js "2024-01-01")) in
  sortResults [march; undated; january] = [january; march; undated].
Proof.
  intros march undated january.
  assert (Hm : parseDate (Some (js "2024-03-01"))
               = Some {| getTime := Ms (UTC 1709251200000) |})
    by exact (parseDate_bare_date 50 48 50 52 48 51 48 49 eq_refl).
  assert (Hj : parseDate (Some (js "2024-01-01"))
               = Some {| getTime := Ms (UTC 1704067200000) |})
    by exact (parseDate_bare_date 50 48 50 52 48 49 48 49 eq_refl).
  assert (Hmj : (compareDue march january <=? 0) = false).
  { unfold compareDue, march, january.
    cbn [assignment sampleResult sampleAssignment CanvasAssignment.due_at].
    change (truthy (Some (js "2024-03-01"))) with true.
    change (truthy (Some (js "2024-01-01"))) with true.
    cbn [negb andb]. rewrite Hm, Hj. cbn [getTime tv_sub]. unfold UTC.
    pose proof (LocalTZA_range 1709251200000 false) as H1.
    pose proof (LocalTZA_range 1704067200000 false) as H2.
    unfold msPerDay in *. apply Z.leb_gt. lia. }
  unfold sortResults. cbn [sort insertSorted].
  change (compareDue undated january <=? 0) with false. cbn iota.
  cbn [insertSorted]. rewrite Hmj.
  change (compareDue march undated <=? 0) with true. reflexivity.
Qed.

End SortTheorems.

(** C4, on the example of the specification: the due dates 2024-03-01, none,
    2024-01-01 sort to 2024-01-01, 2024-03-01, none. *)
Lemma sortResults_example :
  let march := sampleResult 1 (js "Essay") (Some (js "2024-03-01")) in
  let undated := sampleResult 2 (js "Reading") None in
  let january := sampleResult 3 (js "Quiz") (Some (js "2024-01-01")) in
  @sortResults Reference.platform [march; undated; january] = [january; march; undated]
  /\ Permutation [march; undated; january]
       (@sortResults Reference.platform [march; undated; january])
  /\ StronglySorted
       (fun a b => leDue (@dueKey Reference.platform a) (@dueKey Reference.platform b) = true)
       (@sortResults Reference.platform [march; undated; january])
  /\ (forall k : option Z,
        filter (fun a => eqK leDue (@dueKey Reference.platform a) k)
               (@sortResults Reference.platform [march; undated; january])
        = filter (fun a => eqK leDue (@dueKey Reference.platform a) k)
                 [march; undated; january]).
Proof.
  intros march undated january. split; [vm_compute; reflexivity|].
  apply (@sortResults_stable_ascending Reference.platform).
  repeat constructor.
Defined.

(** C4, as the claim states it, fails: with a due date that does not parse
    between them, an assignment due in March stays in front of one due in
    January.  The comparator answers 0 for both neighbouring pairs, in
    either order of the arguments, so the array already counts as sorted,
    although March compares greater than January. *)
Lemma sortResults_unparseable_counterexample :
  let march := sampleResult 1 (js "Essay") (Some (js "2024-03-01")) in
  let unknown := sampleResult 2 (js "Reading") (Some (js "TBD")) in
  let january := sampleResult 3 (js "Quiz") (Some (js "2024-01-01")) in
  @sortResults Reference.platform [march; unknown; january] = [march; unknown; january]
  /\ @dueKey Reference.platform march = Some 1709251200000
  /\ @dueKey Reference.platform january = Some 1704067200000
  /\ @compareDue Reference.platform march unknown = 0
  /\ @compareDue Reference.platform unknown march = 0
  /\ @compareDue Reference.platform unknown january = 0
  /\ @compareDue Reference.platform january unknown = 0
  /\ @compareDue Reference.platform march january = 5184000000.
Proof. vm_compute. repeat split. Qed.

(* ===================================================================== *)
(** * The search: theorems                                                *)
(* ===================================================================== *)

(** ** Splitting on white space *)




Lemma includes_empty_false (c : N) (t : jsstring) : includes [] (c :: t) = false.
Proof. reflexivity. Qed.

Lemma existsb_orb {A : Type} (f g : A -> bool) (l : list A) :
  existsb (fun x => f x || g x) l = existsb f l || existsb g l.
Proof.
  induction l as [|x r IH]; simpl; [reflexivity|].
  rewrite IH. destruct (f x), (g x), (existsb f r), (existsb g r); reflexivity.
Qed.

Section SearchTheorems.
Context {P : Platform}.

Lemma searchTerms_nonempty (normalizedQuery term : jsstring) :
  In term (searchTerms normalizedQuery) -> term <> [].
Proof.
  unfold searchTerms. intros H. apply filter_In in H as [_ H].
  destruct term; [discriminate|congruence].
Qed.


Lemma existsb_ext_in {A : Type} (f g : A -> bool) (l : list A) :
  (forall x, In x l -> f x = g x) -> existsb f l = existsb g l.
Proof.
  induction l as [|x r IH]; intros H; simpl; [reflexivity|].
  rewrite (H x (or_introl eq_refl)), IH; [reflexivity|].
  intros y Hy. apply H. now right.
Qed.

Lemma matchesQuery_anyTermOccurs (normalizedQuery : jsstring) (a : CanvasAssignment.t) :
  matchesQuery normalizedQuery a = anyTermOccurs normalizedQuery a.
Proof.
  unfold matchesQuery, anyTermOccurs. rewrite existsb_orb. f_equal.
  destruct (truthy (CanvasAssignment.description a)) eqn:T; [reflexivity|].
  unfold htmlToPlainText. rewrite T. cbn [negb]. rewrite toLowerCase_empty.
  symmetry. erewrite existsb_ext_in with (g := fun _ => false).
  - induction (searchTerms normalizedQuery); simpl; auto.
  - intros term Hin. apply searchTerms_nonempty in Hin.
    destruct term; [congruence|reflexivity].
Qed.

End SearchTheorems.

(** ** The loop over the courses *)

Section SearchLoop.
Context {P : Platform}.
Variable w : World.
Variables (isWildcard : bool) (normalizedQuery : jsstring).
Variables (dueBefore dueAfter : option jsstring).

Local Abbreviation search := (searchCourse w isWildcard normalizedQuery dueBefore dueAfter).
Local Abbreviation courseMatches :=
  (courseMatches w isWildcard normalizedQuery dueBefore dueAfter).
Local Abbreviation failureLines :=
  (failureLines w isWildcard normalizedQuery dueBefore dueAfter).

Lemma searchStep_run (allResults : list AssignmentWithCourse) (course : CanvasCourse.t) :
  searchStep w isWildcard normalizedQuery dueBefore dueAfter allResults course
  = (logOf (search course) ++ failureLines course,
     inr (allResults ++ courseMatches course)).
Proof.
  unfold searchStep, courseMatches, failureLines, failureLine, outcomeOf, logOf.
  destruct (searchCourse w isWildcard normalizedQuery dueBefore dueAfter course)
    as [l [e|found]]; unfold tryCatch, bind, ret, console_error; cbn [fst snd];
    rewrite ?app_nil_r; reflexivity.
Qed.

Lemma searchCourses_run (courses : list CanvasCourse.t) :
  forall allResults : list AssignmentWithCourse,
  searchCourses w isWildcard normalizedQuery dueBefore dueAfter courses allResults
  = (flat_map (fun course => logOf (search course) ++ failureLines course) courses,
     inr (allResults ++ flat_map courseMatches courses)).
Proof.
  induction courses as [|course rest IH]; intros allResults; simpl.
  - unfold ret. now rewrite app_nil_r.
  - rewrite searchStep_run. unfold bind. rewrite IH.
    f_equal. f_equal. now rewrite <- app_assoc.
Qed.




End SearchLoop.

Section SearchHandlerTheorems.
Context {P : Platform}.
Variable w : World.

Lemma searchAll_returns (args : SearchArgs.t) (courses : list CanvasCourse.t) :
  outcomeOf (searchAll w args courses)
  = inr (sortResults
           (flat_map (courseMatches w
                        (isWildcardQuery (normalizeQuery (SearchArgs.query args)))
                        (normalizeQuery (SearchArgs.query args))
                        (SearchArgs.dueBefore args) (SearchArgs.dueAfter args))
                     courses)).
Proof.
  unfold searchAll. rewrite searchCourses_run. reflexivity.
Qed.




(** ** The wildcard *)

Lemma searchCourses_wildcard (nq1 nq2 : jsstring) (dueBefore dueAfter : option jsstring)
    (courses : list CanvasCourse.t) (allResults : list AssignmentWithCourse) :
  searchCourses w true nq1 dueBefore dueAfter courses allResults
  = searchCourses w true nq2 dueBefore dueAfter courses allResults.
Proof.
  revert allResults. induction courses as [|course rest IH]; intros allResults;
    [reflexivity|].
  cbn [searchCourses].
  change (searchStep w true nq1 dueBefore dueAfter allResults course)
    with (searchStep w true nq2 dueBefore dueAfter allResults course).
  unfold bind.
  destruct (searchStep w true nq2 dueBefore dueAfter allResults course) as [l [e|acc]];
    [reflexivity|].
  now rewrite IH.
Qed.

(** Under a wildcard the handler does not depend on the normalized query. *)
Lemma search_assignments_wildcard (args : SearchArgs.t) (q1 q2 : option jsstring) :
  isWildcardQuery (normalizeQuery q1) = true ->
  isWildcardQuery (normalizeQuery q2) = true ->
  search_assignments w (withQuery args q1) = search_assignments w (withQuery args q2).
Proof.
  intros H1 H2.
  assert (Hall : forall courses,
             searchAll w (withQuery args q1) courses
             = searchAll w (withQuery args q2) courses).
  { intros courses. unfold searchAll. cbv zeta.
    cbn [withQuery SearchArgs.query SearchArgs.dueBefore SearchArgs.dueAfter].
    rewrite H1, H2.
    now rewrite (searchCourses_wildcard (normalizeQuery q1) (normalizeQuery q2)). }
  unfold search_assignments. cbv zeta.
  change (resolveCourses w (withQuery args q1)) with (resolveCourses w args).
  change (resolveCourses w (withQuery args q2)) with (resolveCourses w args).
  cbn [withQuery SearchArgs.query SearchArgs.dueBefore SearchArgs.dueAfter].
  rewrite H1, H2. unfold tryCatch, bind.
  destruct (resolveCourses w args) as [l [e|courses]]; [reflexivity|].
  destruct (isEmpty courses); [reflexivity|]. rewrite Hall. reflexivity.
Qed.

(** C10: a query that is absent or made of white space only is normalized to
    the empty string, which is a wildcard: the handler then answers exactly
    as it does for the queries [""] and ["*"], the text filter is bypassed
    and the result text does not quote the query. *)
Theorem search_assignments_blank_query_is_wildcard
    (args : SearchArgs.t) (query : option jsstring) :
  (query = None \/ exists s, query = Some s /\ forallb isWhiteSpace s = true) ->
  normalizeQuery query = []
  /\ isWildcardQuery (normalizeQuery query) = true
  /\ (forall assignments,
        matchingAssignments (isWildcardQuery (normalizeQuery query))
          (normalizeQuery query) assignments = assignments)
  /\ queryText (isWildcardQuery (normalizeQuery query)) (normalizeQuery query) = []
  /\ search_assignments w (withQuery args query)
     = search_assignments w (withQuery args (Some []))
  /\ search_assignments w (withQuery args query)
     = search_assignments w (withQuery args (Some (js "*"))).
Proof.
  intros Hq.
  assert (Hn : normalizeQuery query = []).
  { destruct Hq as [->|[s [-> Hs]]]; [reflexivity|].
    simpl. now apply trim_all_whitespace. }
  rewrite Hn. repeat split.
  - apply search_assignments_wildcard; [now rewrite Hn|reflexivity].
  - apply search_assignments_wildcard; [now rewrite Hn|reflexivity].
Qed.

End SearchHandlerTheorems.

(** The text filter on the reference platform: the query "quiz" is no
    wildcard and retains the one assignment of two whose title holds the
    term, in any case of the letters; the query [*] retains both. *)
Example matchingAssignments_filters_example :
  let essay := sampleAssignment 1 (js "Essay on Darwin") None in
  let quiz := sampleAssignment 2 (js "Quiz 1") None in
  isWildcardQuery (normalizeQuery (Some (js " Quiz "))) = false
  /\ @matchingAssignments Reference.platform
       (isWildcardQuery (normalizeQuery (Some (js " Quiz "))))
       (normalizeQuery (Some (js " Quiz "))) [essay; quiz] = [quiz]
  /\ @matchingAssignments Reference.platform
       (isWildcardQuery (normalizeQuery (Some (js "*"))))
       (normalizeQuery (Some (js "*"))) [essay; quiz] = [essay; quiz].
Proof. vm_compute. repeat split. Qed.

(** The example of the specification, run on the sample world: the request
    for the assignments of course 2 fails, the handler logs it and answers
    with the three assignments of course 1, in the order of their due
    dates. *)
Example search_assignments_course_failure_example :
  @search_assignments Reference.platform sampleWorld searchEverything
  = ([ js "Fetching assignments from URL: /courses/1/assignments?per_page=100&order_by=due_at&include[]=submission";
       js "Found 3 assignments in course 1";
       js "Fetching assignments from URL: /courses/2/assignments?per_page=100&order_by=due_at&include[]=submission";
       js "Error searching in course 2: Canvas API error: 500 - Internal Server Error" ],
     inr (textResult
            (js "Found 3 assignments:" ++ [LF; LF]
             ++ join [LF]
                  [ js "- Course: Biology (ID: 1)";
                    js "  Assignment: Quiz (ID: 3)";
                    js "  Due: 2024-01-01 00:00 UTC";
                    [];
                    js "- Course: Biology (ID: 1)";
                    js "  Assignment: Essay (ID: 1)";
                    js "  Due: 2024-03-01 00:00 UTC";
                    [];
                    js "- Course: Biology (ID: 1)";
                    js "  Assignment: Reading (ID: 2)";
                    js "  Due: No date set" ]))).
Proof. vm_compute. reflexivity. Qed.

(** C10, on the sample world, for a query of a space, a tab and a space. *)
Lemma search_assignments_blank_query_witness :
  let query := Some [32%N; 9%N; 32%N] in
  normalizeQuery query = []
  /\ isWildcardQuery (normalizeQuery query) = true
  /\ (forall assignments,
        @matchingAssignments Reference.platform (isWildcardQuery (normalizeQuery query))
          (normalizeQuery query) assignments = assignments)
  /\ queryText (isWildcardQuery (normalizeQuery query)) (normalizeQuery query) = []
  /\ @search_assignments Reference.platform sampleWorld (withQuery searchEverything query)
     = @search_assignments Reference.platform sampleWorld
         (withQuery searchEverything (Some []))
  /\ @search_assignments Reference.platform sampleWorld (withQuery searchEverything query)
     = @search_assignments Reference.platform sampleWorld
         (withQuery searchEverything (Some (js "*"))).
Proof.
  apply (@search_assignments_blank_query_is_wildcard Reference.platform sampleWorld
           searchEverything (Some [32%N; 9%N; 32%N])).
  right. exists [32%N; 9%N; 32%N]. split; reflexivity.
Defined.

(* ===================================================================== *)
(** * The handler boundary: theorems                                      *)
(* ===================================================================== *)

Lemma tryCatch_ret_returns {A : Type} (m : Js A) (h : Error -> A) :
  outcomeOf (tryCatch m (fun error => ret (h error)))
  = inr (match outcomeOf m with inl error => h error | inr a => a end).
Proof. destruct m as [l [e|a]]; reflexivity. Qed.

Lemma tryCatch_throw_rethrows {A : Type} (m : Js A) (g : Error -> Error) :
  outcomeOf (tryCatch m (fun error => throw (g error)))
  = match outcomeOf m with inl error => inl (g error) | inr a => inr a end.
Proof. destruct m as [l [e|a]]; reflexivity. Qed.

Lemma bind_outcome_failure {A B : Type} (m : Js A) (f : A -> Js B) (e : Error) :
  outcomeOf m = inl e -> outcomeOf (bind m f) = inl e.
Proof. destruct m as [l [e'|a]]; simpl; intros H; [congruence|discriminate]. Qed.

(** What a request yields: the two configuration errors before any call, the
    error [fetch] rejects with, the API error of a status that is not a
    success, the error of [response.json()], or the value read. *)
Lemma canvasApiRequest_outcome {T : Type} (w : World)
    (fetch : jsstring -> Error + Response T) (path : jsstring) :
  outcomeOf (canvasApiRequest w fetch path)
  = if negb (truthy (canvasApiToken w)) then
      inl (mkError (js "Canvas API token not set. Please check CANVAS_API_TOKEN environment variable."))
    else if negb (truthy (canvasDomain w)) then
      inl (mkError (js "Canvas domain not set. Please check CANVAS_DOMAIN environment variable."))
    else
      match fetch (js "https://" ++ orElse (canvasDomain w) [] ++ js "/api/v1" ++ path) with
      | inl error => inl error
      | inr response =>
          if negb (ok response) then
            inl (mkError (js "Canvas API error: " ++ showZ (status response)
                          ++ js " - " ++ text_body response))
          else json response
      end.
Proof.
  unfold canvasApiRequest, getBaseUrl.
  destruct (negb (truthy (canvasApiToken w))); [reflexivity|].
  destruct (negb (truthy (canvasDomain w))); [reflexivity|].
  unfold bind, ret, liftResult, throw, outcomeOf. cbn [fst snd].
  rewrite <- !app_assoc.
  destruct (fetch _) as [e|response]; [reflexivity|].
  destruct (negb (ok response)); [reflexivity|].
  destruct (json response); reflexivity.
Qed.

Section HandlerBoundary.
Context {P : Platform}.
Variable w : World.

(** C8, amended: the four tool handlers never throw: each returns a result,
    and when the request they start with fails (configuration, API or
    deserialization error) the result is flagged as an error and its text is
    the handler's prefix followed by the message of the failure.  The
    resource handler [assignment_content] returns its contents when the
    request succeeds, and when it fails throws a new error, "Failed to fetch
    assignment content: " followed by the message. *)
Theorem tool_handlers_return_resource_handler_rethrows :
  (forall state, exists result,
      outcomeOf (list_courses w state) = inr result
      /\ forall error,
           outcomeOf (canvasApiRequest w (fetchCourses w)
                        (js "/courses?enrollment_state=" ++ showState state
                         ++ js "&include[]=term")) = inl error ->
           result = errorResult (js "Failed to fetch courses: " ++ message error))
  /\ (exists result,
        outcomeOf (canvas_list_active_courses w) = inr result
        /\ forall error,
             outcomeOf (canvasApiRequest w (fetchDashboardCards w)
                          (js "/dashboard/dashboard_cards")) = inl error ->
             result = errorResult (js "Failed to fetch active courses: " ++ message error))
  /\ (forall args, exists result,
        outcomeOf (search_assignments w args) = inr result
        /\ forall error,
             outcomeOf (resolveCourses w args) = inl error ->
             result = errorResult (js "Search failed: " ++ message error))
  /\ (forall courseId assignmentId formatType, exists result,
        outcomeOf (get_assignment w courseId assignmentId formatType) = inr result
        /\ forall error,
             outcomeOf (canvasApiRequest w (fetchAssignment w)
                          (js "/courses/" ++ showId courseId ++ js "/assignments/"
                           ++ showId assignmentId)) = inl error ->
             result = errorResult (js "Failed to fetch assignment details: "
                                   ++ message error))
  /\ (forall uri_href courseId assignmentId,
        match outcomeOf (canvasApiRequest w (fetchAssignment w)
                           (js "/courses/" ++ courseId ++ js "/assignments/"
                            ++ assignmentId)) with
        | inl error =>
            outcomeOf (assignment_content w uri_href courseId assignmentId)
            = inl (mkError (js "Failed to fetch assignment content: " ++ message error))
        | inr _ =>
            exists contents,
              outcomeOf (assignment_content w uri_href courseId assignmentId)
              = inr contents
        end).
Proof.
  split; [|split; [|split; [|split]]].
  - intros state. unfold list_courses. rewrite tryCatch_ret_returns.
    eexists. split; [reflexivity|]. intros error H.
    now rewrite (bind_outcome_failure _ _ error H).
  - unfold canvas_list_active_courses. rewrite tryCatch_ret_returns.
    eexists. split; [reflexivity|]. intros error H.
    now rewrite (bind_outcome_failure _ _ error H).
  - intros args. unfold search_assignments. rewrite tryCatch_ret_returns.
    eexists. split; [reflexivity|]. intros error H. cbv zeta.
    now rewrite (bind_outcome_failure _ _ error H).
  - intros courseId assignmentId formatType. unfold get_assignment.
    rewrite tryCatch_ret_returns.
    eexists. split; [reflexivity|]. intros error H.
    now rewrite (bind_outcome_failure _ _ error H).
  - intros uri_href courseId assignmentId. unfold assignment_content.
    rewrite tryCatch_throw_rethrows.
    destruct (canvasApiRequest w (fetchAssignment w) _) as [l [error|a]];
      cbn [outcomeOf snd bind]; [reflexivity|].
    eexists. reflexivity.
Qed.

End HandlerBoundary.

(** C8, as the claim states it, fails for the resource handler: without an
    API token, [assignment_content] does not return a result, it throws. *)
Lemma assignment_content_throws_counterexample :
  outcomeOf (@assignment_content Reference.platform unconfiguredWorld
               (js "canvas://courses/1/assignments/2") (js "1") (js "2"))
  = inl (mkError (js "Failed to fetch assignment content: Canvas API token not set. Please check CANVAS_API_TOKEN environment variable.")).
Proof. vm_compute. reflexivity. Qed.

(* ===================================================================== *)
(** * The assignment report: theorems                                     *)
(* ===================================================================== *)




Section ReportTheorems.
Context {P : Platform}.
















End ReportTheorems.

(** The links section of a description with one anchor, and of the same
    description when the parser finds no anchor in it. *)
Example get_assignment_links_example :
  @descriptionHasAnchor linkedPlatform linkedAssignment = true
  /\ pushLinks (@assignmentLinks linkedPlatform linkedAssignment) []
     = [ []; js "## Required Materials and Links"; [];
         js "- [the syllabus](https://example.edu/syllabus)" ]
  /\ @descriptionHasAnchor Reference.platform linkedAssignment = false
  /\ pushLinks (@assignmentLinks Reference.platform linkedAssignment) [] = [].
Proof. vm_compute. repeat split. Qed.

(** The report of the sample assignment, with three allowed attempts, and
    the error result of an assignment the API does not know. *)
Example get_assignment_report_example :
  @get_assignment Reference.platform detailWorld
     (IdNumber 1) (IdString (js "7")) Markdown
  = ([], inr (textResult
               (join [LF]
                  [ js "# Lab report";
                    [];
                    js "**Course ID:** 1";
                    js "**Assignment ID:** 7";
                    js "**Due Date:** 2024-03-01 23:59 UTC";
                    js "**Points Possible:** 20";
                    js "**Status:** Published";
                    [];
                    js "## Submission Requirements";
                    js "- **Submission Type:** online_upload";
                    js "- **Allowed File Types:** `.pdf`, `.docx`";
                    js "- **Allowed Attempts:** 3";
                    js "- **Grading Type:** letter grade";
                    js "- **Time Restrictions:**";
                    js "  - Locks at: 2024-03-08 23:59 UTC";
                    js "- **Group Assignment:** Yes";
                    [];
                    js "## Rubric";
                    js "*This rubric is used for grading*";
                    [];
                    js "### Method (10 points)";
                    [];
                    [];
                    js "## Special Requirements";
                    [];
                    js "- Lockdown Browser Required";
                    [];
                    js "## Access Restrictions";
                    [];
                    js "This assignment is currently locked.";
                    [];
                    js "## Description";
                    [];
                    js "Budget: \$5 per group." ])))
  /\ @get_assignment Reference.platform detailWorld
       (IdNumber 1) (IdString (js "8")) Markdown
     = ([], inr (errorResult
                  (js "Failed to fetch assignment details: Canvas API error: 404 - Not Found"))).
Proof. vm_compute. split; reflexivity. Qed.

(* ===================================================================== *)
(** * Further properties: the remote client and the start-up check        *)
(* ===================================================================== *)

Lemma canvasApiRequest_log {T : Type} (w : World)
    (fetch : jsstring -> Error + Response T) (path : jsstring) :
  logOf (canvasApiRequest w fetch path) = [].
Proof.
  unfold canvasApiRequest, getBaseUrl, logOf.
  destruct (negb (truthy (canvasApiToken w))); [reflexivity|].
  destruct (negb (truthy (canvasDomain w))); [reflexivity|].
  unfold bind, ret, liftResult, throw. cbn [fst snd].
  destruct (fetch _) as [e|response]; [reflexivity|].
  destruct (negb (ok response)); [reflexivity|].
  destruct (json response); reflexivity.
Qed.

(** X1: a request checks the configuration before anything else, the token
    first: without a token, or with a token and no domain, it fails with the
    message of what is missing and does not depend on what [fetch] would
    answer; otherwise it fails with the error [fetch] rejects with, with an
    API error carrying the status and the body text when the status is not a
    success, or with the error of [response.json()], and else returns the
    value read.  It writes nothing to the log. *)
Theorem canvasApiRequest_configuration_first {T : Type} (w : World)
    (fetch fetch' : jsstring -> Error + Response T) (path : jsstring) :
  let url := js "https://" ++ orElse (canvasDomain w) [] ++ js "/api/v1" ++ path in
  logOf (canvasApiRequest w fetch path) = []
  /\ (truthy (canvasApiToken w) = false ->
      outcomeOf (canvasApiRequest w fetch path)
      = inl (mkError (js "Canvas API token not set. Please check CANVAS_API_TOKEN environment variable.")))
  /\ (truthy (canvasApiToken w) = true -> truthy (canvasDomain w) = false ->
      outcomeOf (canvasApiRequest w fetch path)
      = inl (mkError (js "Canvas domain not set. Please check CANVAS_DOMAIN environment variable.")))
  /\ (truthy (canvasApiToken w) = false \/ truthy (canvasDomain w) = false ->
      canvasApiRequest w fetch path = canvasApiRequest w fetch' path)
  /\ (truthy (canvasApiToken w) = true -> truthy (canvasDomain w) = true ->
      outcomeOf (canvasApiRequest w fetch path)
      = match fetch url with
        | inl error => inl error
        | inr response =>
            if ok response then json response
            else inl (mkError (js "Canvas API error: " ++ showZ (status response)
                               ++ js " - " ++ text_body response))
        end).
Proof.
  intros url. unfold url.
  pose proof (canvasApiRequest_outcome w fetch path) as Hout.
  split; [|split; [|split; [|split]]].
  - apply canvasApiRequest_log.
  - intros Ht. rewrite Hout, Ht. reflexivity.
  - intros Ht Hd. rewrite Hout, Ht, Hd. reflexivity.
  - intros [Ht|Hd]; unfold canvasApiRequest, getBaseUrl.
    + rewrite Ht. reflexivity.
    + rewrite Hd. destruct (negb (truthy (canvasApiToken w))); reflexivity.
  - intros Ht Hd. rewrite Hout, Ht, Hd. cbn [negb].
    destruct (fetch _) as [e|response]; [reflexivity|].
    destruct (ok response); reflexivity.
Qed.

(** X2: the validation at start-up never throws and always writes to the
    log.  When the token or the domain is missing it writes only the
    warnings and makes no request; when both are set it writes two lines: the
    domain it is configured for, then the user it authenticated as or the
    message of the failure. *)
Theorem validateSetup_never_throws (w : World)
    (fetchUser fetchUser' : jsstring -> Error + Response CanvasUser.t) :
  outcomeOf (validateSetup w fetchUser) = inr tt
  /\ logOf (validateSetup w fetchUser) <> []
  /\ (truthy (canvasApiToken w) = false \/ truthy (canvasDomain w) = false ->
      validateSetup w fetchUser = validateSetup w fetchUser'
      /\ logOf (validateSetup w fetchUser)
         = (if truthy (canvasApiToken w) then []
            else [js "Warning: CANVAS_API_TOKEN not set. Server will not function correctly."])
           ++ (if truthy (canvasDomain w) then []
               else [js "Warning: CANVAS_DOMAIN not set. Server will not function correctly."]))
  /\ (truthy (canvasApiToken w) = true -> truthy (canvasDomain w) = true ->
      logOf (validateSetup w fetchUser)
      = [ js "Environment configured correctly for domain: " ++ orElse (canvasDomain w) [];
          match outcomeOf (canvasApiRequest w fetchUser (js "/users/self")) with
          | inr user =>
              js "Successfully authenticated as " ++ CanvasUser.name user
              ++ js " (" ++ CanvasUser.email user ++ js ")"
          | inl error => js "Authentication failed: " ++ message error
          end ]).
Proof.
  pose proof (canvasApiRequest_log w fetchUser (js "/users/self")) as Hlog.
  unfold validateSetup.
  destruct (truthy (canvasApiToken w)) eqn:Ht, (truthy (canvasDomain w)) eqn:Hd;
    cbn [negb andb].
  - destruct (canvasApiRequest w fetchUser (js "/users/self")) as [l [e|user]] eqn:Hreq;
      unfold logOf in Hlog; cbn [fst] in Hlog; subst l.
    + split; [reflexivity|]. split; [discriminate|].
      split; [intros [H|H]; discriminate|]. intros _ _. reflexivity.
    + split; [reflexivity|]. split; [discriminate|].
      split; [intros [H|H]; discriminate|]. intros _ _. reflexivity.
  - split; [reflexivity|]. split; [discriminate|].
    split; [intros _; split; reflexivity|]. intros _ H. discriminate.
  - split; [reflexivity|]. split; [discriminate|].
    split; [intros _; split; reflexivity|]. intros H. discriminate.
  - split; [reflexivity|]. split; [discriminate|].
    split; [intros _; split; reflexivity|]. intros H. discriminate.
Qed.

(* ===================================================================== *)
(** * Further properties: the rendering pipeline                          *)
(* ===================================================================== *)

(** X3: whatever the description, the plain text [htmlToPlainText] returns
    is escaped: a dollar sign that stands before a digit has a backslash in
    front of it.  So has the text [getTextContent] hands to the headings, the
    bold and italic spans and the anchors of the Markdown rendering. *)
Theorem htmlToPlainText_always_escaped {P : Platform}
    (html : option jsstring) (element : Node) :
  dollarsEscaped 0 (htmlToPlainText html) = true
  /\ dollarsEscaped 0 (getTextContent element) = true.
Proof.
  split.
  - unfold htmlToPlainText. destruct (negb (truthy html)); [reflexivity|].
    apply escapeDollar_escaped.
  - apply escapeDollar_escaped.
Qed.

Lemma escapeDollar_no_dollar_digit_head (s : jsstring) :
  match escapeDollar s with
  | d :: r' => (d =? DOLLAR)%N && startsWithDigit r'
  | [] => false
  end = false.
Proof.
  destruct s as [|c r]; [reflexivity|]. simpl.
  destruct ((c =? DOLLAR)%N && startsWithDigit r) eqn:H; [reflexivity|].
  now rewrite startsWithDigit_escapeDollar.
Qed.

Lemma unescapeDollar_cons (c : N) (s : jsstring) :
  (c =? BACKSLASH)%N
  && match s with
     | d :: r' => (d =? DOLLAR)%N && startsWithDigit r'
     | [] => false
     end = false ->
  unescapeDollar (c :: s) = c :: unescapeDollar s.
Proof.
  destruct s as [|d r']; [reflexivity|].
  intros H. cbn [unescapeDollar]. rewrite <- andb_assoc, H. reflexivity.
Qed.

Lemma unescape_escapeDollar (s : jsstring) : unescapeDollar (escapeDollar s) = s.
Proof.
  induction s as [|c r IH]; [reflexivity|].
  cbn [escapeDollar].
  destruct ((c =? DOLLAR)%N && startsWithDigit r) eqn:H.
  - apply andb_true_iff in H as [Hc Hd]. apply N.eqb_eq in Hc. subst c.
    assert (E : unescapeDollar (BACKSLASH :: DOLLAR :: escapeDollar r)
                = unescapeDollar (DOLLAR :: escapeDollar r)).
    { cbn [unescapeDollar]. rewrite startsWithDigit_escapeDollar, Hd. reflexivity. }
    rewrite E, unescapeDollar_cons, IH; reflexivity.
  - rewrite unescapeDollar_cons, IH; [reflexivity|].
    rewrite escapeDollar_no_dollar_digit_head. apply andb_false_r.
Qed.

(** X4: the dollar escape loses nothing.  Taking away the backslash in front
    of each escaped dollar sign gives the text back, so two different texts
    never have the same escaped form; and the escaped form is the text itself
    exactly when no dollar sign stands before a digit in it. *)
Theorem escapeDollar_lossless (s s' : jsstring) :
  unescapeDollar (escapeDollar s) = s
  /\ (escapeDollar s = escapeDollar s' -> s = s')
  /\ (escapeDollar s = s <-> hasDollarDigit s = false)
  /\ (List.length s <= List.length (escapeDollar s) <= 2 * List.length s)%nat.
Proof.
  split; [apply unescape_escapeDollar|]. split; [|split].
  - intros H. rewrite <- (unescape_escapeDollar s), <- (unescape_escapeDollar s'), H.
    reflexivity.
  - split; [|apply escapeDollar_id].
    induction s as [|c r IH]; [reflexivity|].
    cbn [escapeDollar hasDollarDigit].
    destruct ((c =? DOLLAR)%N && startsWithDigit r) eqn:E.
    + intros H. apply andb_true_iff in E as [Ec _]. apply N.eqb_eq in Ec.
      inversion H. subst c. discriminate.
    + intros H. inversion H as [H']. rewrite H'. apply IH. exact H'.
  - induction s as [|c r IH]; [simpl; lia|].
    cbn [escapeDollar]. destruct ((c =? DOLLAR)%N && startsWithDigit r);
      cbn [List.length]; lia.
Qed.

Lemma dropWhile_split (p : N -> bool) (s : jsstring) :
  exists d, s = d ++ dropWhile p s.
Proof.
  induction s as [|c r [d IH]]; [now exists []|].
  simpl. destruct (p c).
  - exists (c :: d). simpl. now rewrite <- IH.
  - now exists [].
Qed.

Lemma dropWhile_head (s : jsstring) :
  startsWithWhiteSpace (dropWhile isWhiteSpace s) = false.
Proof.
  induction s as [|c r IH]; [reflexivity|].
  simpl. destruct (isWhiteSpace c) eqn:W; [exact IH|]. simpl. exact W.
Qed.

Lemma trimEnd_head (s : jsstring) :
  startsWithWhiteSpace s = false -> startsWithWhiteSpace (trimEnd s) = false.
Proof.
  intros H. unfold trimEnd.
  destruct (dropWhile_split isWhiteSpace (rev s)) as [d Hd].
  destruct (rev (dropWhile isWhiteSpace (rev s))) as [|c t] eqn:E; [reflexivity|].
  apply (f_equal (@rev N)) in Hd. rewrite rev_involutive, rev_app_distr, E in Hd.
  subst s. exact H.
Qed.

Lemma trim_noOuterWhiteSpace (s : jsstring) : noOuterWhiteSpace (trim s) = true.
Proof.
  unfold noOuterWhiteSpace, trim.
  rewrite trimEnd_head by apply dropWhile_head.
  unfold trimEnd. rewrite rev_involutive, dropWhile_head. reflexivity.
Qed.

Lemma isWhiteSpace_LF (c : N) : isWhiteSpace c = false -> (c =? LF)%N = false.
Proof.
  intros H. destruct (N.eqb_spec c LF) as [->|]; [discriminate H|reflexivity].
Qed.

Lemma collapseFrom_snoc (x : N) (s : jsstring) : forall run : nat,
  (x =? LF)%N = false ->
  collapseFrom run (s ++ [x]) = collapseFrom run s ++ [x].
Proof.
  induction s as [|c r IH]; intros run Hx; simpl.
  - now rewrite Hx.
  - destruct (c =? LF)%N.
    + destruct run as [|[|run]]; simpl; now rewrite IH.
    + simpl. now rewrite IH.
Qed.

Lemma collapseNewlines_noOuterWhiteSpace (s : jsstring) :
  noOuterWhiteSpace s = true -> noOuterWhiteSpace (collapseNewlines s) = true.
Proof.
  unfold noOuterWhiteSpace, collapseNewlines. intros H.
  apply andb_true_iff in H as [Hh Hl]. apply negb_true_iff in Hh, Hl.
  apply andb_true_iff. split; apply negb_true_iff.
  - destruct s as [|c r]; [reflexivity|]. simpl in Hh. simpl.
    rewrite (isWhiteSpace_LF c Hh). exact Hh.
  - destruct (rev s) as [|x t] eqn:E.
    + apply (f_equal (@rev N)) in E. rewrite rev_involutive in E. subst s. reflexivity.
    + apply (f_equal (@rev N)) in E. rewrite rev_involutive in E. subst s.
      simpl in Hl. cbn [rev]. rewrite collapseFrom_snoc by now apply isWhiteSpace_LF.
      rewrite rev_app_distr. exact Hl.
Qed.

Lemma collapseFrom_no_triple (s : jsstring) : forall run : nat,
  (run <= 2)%nat ->
  hasTripleLF (repeat LF run ++ collapseFrom run s) = false.
Proof.
  unfold hasTripleLF.
  induction s as [|c r IH]; intros run Hrun.
  - destruct run as [|[|[|run]]]; try lia; reflexivity.
  - cbn [collapseFrom]. destruct (c =? LF)%N eqn:Hc.
    + destruct run as [|[|[|run]]]; try lia.
      * apply (IH 1%nat). lia.
      * apply (IH 2%nat). lia.
      * apply (IH 2%nat). lia.
    + specialize (IH 0%nat ltac:(lia)). cbn [repeat app] in IH.
      destruct run as [|[|[|run]]]; try lia; cbn [repeat app includes startsWith];
        unfold LF in *; rewrite ?Hc, IH;
        cbn [N.eqb Pos.eqb andb orb]; rewrite ?andb_false_r;
        destruct (collapseFrom 0 r) as [|a [|b t]]; reflexivity.
Qed.

(** X5: whatever the description and the parser, the Markdown that
    [convertHtmlToMarkdown] returns neither starts nor ends with white space
    and holds no run of three line feeds. *)
Theorem convertHtmlToMarkdown_output_shape {P : Platform} (html : jsstring) :
  noOuterWhiteSpace (convertHtmlToMarkdown html) = true
  /\ hasTripleLF (convertHtmlToMarkdown html) = false.
Proof.
  unfold convertHtmlToMarkdown, markdownOf. cbv zeta. split.
  - apply collapseNewlines_noOuterWhiteSpace, trim_noOuterWhiteSpace.
  - exact (collapseFrom_no_triple _ 0%nat ltac:(lia)).
Qed.

Lemma mapChildren_filter {B : Type} (f : nat -> Node -> B) (cs : list Node) :
  forall i : nat, mapChildren f i cs = mapChildren f i (filter isElement cs).
Proof.
  induction cs as [|c r IH]; intros i; [reflexivity|].
  cbn [mapChildren filter]. destruct (isElement c) eqn:E.
  - cbn [mapChildren]. rewrite E. now rewrite IH.
  - apply IH.
Qed.

(** X6: a list renders its element children only.  Text and comments that
    lie directly in a [ul] or an [ol], between the items, are dropped, and
    they do not count in the numbering of an ordered list: the rendering is
    that of the list with only its element children. *)
Theorem processNode_list_element_children
    (attrs : list (jsstring * jsstring)) (childNodes : list Node) :
  processNode (Element (js "ul") attrs childNodes)
  = processNode (Element (js "ul") attrs (filter isElement childNodes))
  /\ processNode (Element (js "ol") attrs childNodes)
     = processNode (Element (js "ol") attrs (filter isElement childNodes))
  /\ processNode (Element (js "ul") attrs childNodes)
     = join [LF] (map (fun li => js "- " ++ processNode li)
                      (filter isElement childNodes))
       ++ [LF; LF].
Proof.
  assert (Hul : forall cs,
             processNode (Element (js "ul") attrs cs)
             = join [LF] (mapChildren (fun _ li => js "- " ++ processNode li) 0 cs)
               ++ [LF; LF]) by reflexivity.
  assert (Hol : forall cs,
             processNode (Element (js "ol") attrs cs)
             = join [LF] (mapChildren
                            (fun index li =>
                               showZ (Z.of_nat index + 1) ++ js ". " ++ processNode li)
                            0 cs)
               ++ [LF; LF]) by reflexivity.
  split; [|split].
  - rewrite !Hul. now rewrite <- mapChildren_filter.
  - rewrite !Hol. now rewrite <- mapChildren_filter.
  - rewrite Hul. f_equal. f_equal.
    generalize 0%nat. induction childNodes as [|c r IH]; intros i; [reflexivity|].
    cbn [mapChildren filter]. destruct (isElement c); [|apply IH].
    cbn [map]. now rewrite IH.
Qed.

(** X7: an element whose tag has no case in [processNode] (a [div], a
    [span], a table cell) is transparent: it renders as its children do, so
    wrapping the content of a description in such an element does not change
    the Markdown; and for the plain text every element is transparent. *)
Theorem unknown_tags_are_transparent
    (tag : jsstring) (attrs : list (jsstring * jsstring)) (childNodes : list Node) :
  isMarkdownTag tag = false ->
  processNode (Element tag attrs childNodes) = join [] (map processNode childNodes)
  /\ markdownOf {| body := [Element tag attrs childNodes] |}
     = markdownOf {| body := childNodes |}
  /\ plainTextOf {| body := [Element tag attrs childNodes] |}
     = plainTextOf {| body := childNodes |}.
Proof.
  intros H. unfold isMarkdownTag, markdownTags in H. cbn [existsb] in H.
  repeat (apply orb_false_iff in H; destruct H as [? H]).
  assert (E : processNode (Element tag attrs childNodes)
              = join [] (map processNode childNodes)).
  { cbn [processNode].
    repeat match goal with Ht : tagIs tag _ = false |- _ => rewrite Ht; clear Ht end.
    reflexivity. }
  split; [exact E|]. split.
  - unfold markdownOf. cbn [body map]. rewrite join_nil_single, E. reflexivity.
  - unfold plainTextOf, bodyTextContent. cbn [body flat_map descendantText].
    now rewrite app_nil_r.
Qed.

Lemma unknown_tags_are_transparent_witness :
  let childNodes := [Text (js "Read "); Element (js "b") [] [Text (js "chapter 2")]] in
  processNode (Element (js "div") [] childNodes) = join [] (map processNode childNodes)
  /\ markdownOf {| body := [Element (js "div") [] childNodes] |}
     = markdownOf {| body := childNodes |}
  /\ plainTextOf {| body := [Element (js "div") [] childNodes] |}
     = plainTextOf {| body := childNodes |}.
Proof.
  apply (unknown_tags_are_transparent (js "div") []). reflexivity.
Defined.

(* ===================================================================== *)
(** * Further properties: the date helpers                                *)
(* ===================================================================== *)

Section DateProperties.
Context {P : Platform}.

(** X8: the two bounds of [isDateInRange] are checked independently of each
    other: a date is in range exactly when it passes the check against
    [before] alone and the check against [after] alone.  Without bounds every
    date is in range, and a bound that does not parse counts as no bound. *)
Theorem isDateInRange_bounds_independent (date before after : option jsstring) :
  isDateInRange date before after
  = isDateInRange date before None && isDateInRange date None after
  /\ isDateInRange date None None = true
  /\ (parseDate before = None ->
      isDateInRange date before after = isDateInRange date None after)
  /\ (parseDate after = None ->
      isDateInRange date before after = isDateInRange date before None).
Proof.
  unfold isDateInRange. cbn [truthy].
  destruct (negb (truthy date)); [repeat split; reflexivity|].
  destruct (parseDate date) as [dueDate|]; [|repeat split; reflexivity].
  split; [|split; [|split]].
  - destruct (truthy before); [destruct (parseDate before) as [b|]|];
      try destruct (negb (tv_gtb (getTime dueDate) (getTime (setHours b 23 59 59 999))));
      cbn [negb andb]; try reflexivity;
      destruct (truthy after); try reflexivity; destruct (parseDate after); reflexivity.
  - reflexivity.
  - intros Hb. rewrite Hb. destruct (truthy before); reflexivity.
  - intros Ha. rewrite Ha.
    destruct (truthy before); [destruct (parseDate before) as [b|]|];
      try destruct (negb (tv_gtb (getTime dueDate) (getTime (setHours b 23 59 59 999))));
      cbn [negb]; try reflexivity; destruct (truthy after); reflexivity.
Qed.

Lemma isBareDate_digits (s : jsstring) :
  isBareDate s = true ->
  exists y1 y2 y3 y4 m1 m2 d1 d2,
    s = [y1; y2; y3; y4; 45%N; m1; m2; 45%N; d1; d2]
    /\ forallb isDigit [y1; y2; y3; y4; m1; m2; d1; d2] = true.
Proof.
  unfold isBareDate.
  destruct s as [|y1 [|y2 [|y3 [|y4 [|h1 [|m1 [|m2 [|h2 [|d1 [|d2 [|x t]]]]]]]]]]];
    try discriminate.
  intros H. do 9 (apply andb_true_iff in H; destruct H as [H ?]).
  repeat match goal with Hh : (_ =? 45)%N = true |- _ => apply N.eqb_eq in Hh; subst end.
  exists y1, y2, y3, y4, m1, m2, d1, d2. split; [reflexivity|].
  cbn [forallb].
  repeat match goal with Hx : isDigit _ = true |- _ => rewrite Hx; clear Hx end.
  reflexivity.
Qed.

(** A date of four, two and two digits parses to a time within 400 000 days
    of the epoch. *)
Lemma parseDate_bare_date_bound (s : jsstring) :
  isBareDate s = true ->
  exists t, parseDate (Some s) = Some {| getTime := Ms t |}
            /\ Z.abs t <= 400000000000000.
Proof.
  intros H. destruct (isBareDate_digits s H) as (y1&y2&y3&y4&m1&m2&d1&d2&->&Hd).
  pose proof (parseDate_bare_date y1 y2 y3 y4 m1 m2 d1 d2 Hd) as Hp.
  cbv zeta in Hp. eexists. split; [exact Hp|].
  simpl in Hd. repeat (apply andb_true_iff in Hd; destruct Hd as [? Hd]). clear Hd.
  repeat match goal with
         | Hx : isDigit ?c = true |- _ => apply digitValue_range in Hx
         end.
  set (year := Number [y1; y2; y3; y4]) in *.
  set (month := Number [m1; m2]) in *.
  set (day := Number [d1; d2]) in *.
  assert (Hyear : 0 <= year <= 9999) by (unfold year, Number; cbn [fold_left]; lia).
  assert (Hmonth : -1 <= month - 1 <= 98) by (unfold month, Number; cbn [fold_left]; lia).
  assert (Hday : 0 <= day <= 99) by (unfold day, Number; cbn [fold_left]; lia).
  set (yr := if (0 <=? year) && (year <=? 99) then 1900 + year else year).
  assert (Hyr : 0 <= yr <= 9999).
  { unfold yr. destruct ((0 <=? year) && (year <=? 99)) eqn:E; [|lia].
    apply andb_true_iff in E as [_ E]. apply Z.leb_le in E. lia. }
  pose proof (MakeDay_range yr (month - 1) day Hyr Hmonth Hday) as Hr.
  unfold UTC, MakeDate.
  pose proof (LocalTZA_range (MakeDay yr (month - 1) day * msPerDay + 0) false) as Hz.
  unfold msPerDay in *. lia.
Qed.

(** X9: [parseDate] never hands out an invalid date: what it returns has a
    time value, and it returns none for a null or empty string.  A string of
    the form YYYY-MM-DD always yields a date (no string of that form is
    rejected), and any other string yields what [Date.parse] makes of it. *)
Theorem parseDate_returns_valid_dates (dateStr : option jsstring) :
  (forall d, parseDate dateStr = Some d ->
     truthy dateStr = true /\ exists t, getTime d = Ms t)
  /\ (truthy dateStr = false -> parseDate dateStr = None)
  /\ (isBareDate (orElse dateStr []) = true ->
      exists t, parseDate dateStr = Some {| getTime := Ms t |})
  /\ (truthy dateStr = true -> isBareDate (orElse dateStr []) = false ->
      parseDate dateStr
      = match Date_parse (orElse dateStr []) with
        | NaN => None
        | Ms t => Some {| getTime := Ms t |}
        end).
Proof.
  split; [|split; [|split]].
  - intros d H. split; [exact (parseDate_truthy _ _ H)|exact (parseDate_valid _ _ H)].
  - apply parseDate_falsy.
  - intros H. destruct dateStr as [[|c r]|]; try discriminate.
    destruct (parseDate_bare_date_bound (c :: r) H) as [t [Ht _]]. now exists t.
  - intros Ht Hb. unfold parseDate. rewrite Ht, Hb. cbn [negb].
    unfold validOrNull, Date_of_string. cbn [getTime].
    destruct (Date_parse (orElse dateStr [])); reflexivity.
Qed.

End DateProperties.

(* ===================================================================== *)
(** * Further properties: the sort of the results                         *)
(* ===================================================================== *)

Section StableSortUnique.
Variables (A K : Type) (key : A -> K).
Variable leK : K -> K -> bool.
Hypothesis leK_total : forall a b, leK a b = true \/ leK b a = true.

(** Two arrangements in ascending order of the keys that hold, for every key,
    the same elements of that key in the same order are the same list: a
    consistent comparator leaves a stable sort no choice. *)
Lemma stable_sort_unique (l1 : list A) : forall l2 : list A,
  StronglySorted (keyOrdered key leK) l1 ->
  StronglySorted (keyOrdered key leK) l2 ->
  (forall k, filter (fun a => eqK leK (key a) k) l1
             = filter (fun a => eqK leK (key a) k) l2) ->
  l1 = l2.
Proof.
  assert (Hrefl : forall k, eqK leK k k = true).
  { intros k. unfold eqK. destruct (leK_total k k) as [H|H]; now rewrite H. }
  assert (Hsym : forall a b, eqK leK a b = eqK leK b a).
  { intros a b. unfold eqK. apply andb_comm. }
  induction l1 as [|x r1 IH]; intros l2 H1 H2 Hf.
  - destruct l2 as [|y r2]; [reflexivity|].
    specialize (Hf (key y)). cbn [filter] in Hf. rewrite Hrefl in Hf. discriminate.
  - destruct l2 as [|y r2].
    { specialize (Hf (key x)). cbn [filter] in Hf. rewrite Hrefl in Hf. discriminate. }
    inversion H1 as [|? ? S1 F1]; subst. inversion H2 as [|? ? S2 F2]; subst.
    assert (Hxy : x = y).
    { pose proof (Hf (key x)) as Hx. cbn [filter] in Hx. rewrite Hrefl in Hx.
      destruct (eqK leK (key y) (key x)) eqn:E; [now inversion Hx|].
      pose proof (Hf (key y)) as Hy. cbn [filter] in Hy.
      rewrite Hrefl, (Hsym (key x) (key y)), E in Hy.
      assert (Ix : In x r2).
      { apply (proj1 (filter_In (fun a => eqK leK (key a) (key x)) x r2)).
        rewrite <- Hx. now left. }
      assert (Iy : In y r1).
      { apply (proj1 (filter_In (fun a => eqK leK (key a) (key y)) y r1)).
        rewrite Hy. now left. }
      pose proof (proj1 (Forall_forall _ _) F2 x Ix) as Lyx.
      pose proof (proj1 (Forall_forall _ _) F1 y Iy) as Lxy.
      unfold keyOrdered in Lyx, Lxy. unfold eqK in E. rewrite Lyx, Lxy in E.
      discriminate. }
    subst y. f_equal. apply IH; [exact S1|exact S2|].
    intros k. specialize (Hf k). cbn [filter] in Hf.
    destruct (eqK leK (key x) k); [now inversion Hf|exact Hf].
Qed.

End StableSortUnique.

Section SortProperties.
Context {P : Platform}.

Lemma compareDue_undated_left (a b : AssignmentWithCourse) :
  undated a = true -> compareDue a b = if undated b then 0 else 1.
Proof.
  unfold undated, compareDue. intros Ha. rewrite Ha. cbn [andb].
  destruct (negb (truthy (CanvasAssignment.due_at (assignment b)))); reflexivity.
Qed.

Lemma compareDue_undated_right (a b : AssignmentWithCourse) :
  undated a = false -> undated b = true -> compareDue a b = -1.
Proof.
  unfold undated, compareDue. intros Ha Hb. rewrite Ha, Hb. reflexivity.
Qed.

(** An element moves behind another only if that other one has a due
    date. *)
Lemma compareDue_positive_dated (x y : AssignmentWithCourse) :
  (compareDue x y <=? 0) = false -> undated y = false.
Proof.
  intros H. destruct (undated y) eqn:Hy; [|reflexivity].
  destruct (undated x) eqn:Hx.
  - rewrite (compareDue_undated_left x y Hx), Hy in H. discriminate.
  - rewrite (compareDue_undated_right x y Hx Hy) in H. discriminate.
Qed.

Lemma insertSorted_undated_filter (x : AssignmentWithCourse)
    (l : list AssignmentWithCourse) :
  filter undated (insertSorted compareDue x l) = filter undated (x :: l).
Proof.
  induction l as [|y r IH]; [reflexivity|].
  cbn [insertSorted]. destruct (compareDue x y <=? 0) eqn:E; [reflexivity|].
  pose proof (compareDue_positive_dated x y E) as Hy.
  cbn [filter] in *. rewrite Hy, IH. reflexivity.
Qed.

Lemma insertSorted_forallb_undated (x : AssignmentWithCourse)
    (l : list AssignmentWithCourse) :
  undated x = true -> forallb undated l = true ->
  forallb undated (insertSorted compareDue x l) = true.
Proof.
  intros Hx. induction l as [|y r IH]; intros Hl; cbn [insertSorted].
  - cbn. now rewrite Hx.
  - cbn [forallb] in Hl. apply andb_true_iff in Hl as [Hy Hr].
    destruct (compareDue x y <=? 0); cbn [forallb]; rewrite ?Hx, ?Hy, ?Hr, ?IH; auto.
Qed.

Lemma insertSorted_undatedLast (x : AssignmentWithCourse)
    (l : list AssignmentWithCourse) :
  undatedLast l = true -> undatedLast (insertSorted compareDue x l) = true.
Proof.
  induction l as [|y r IH]; intros Hl; cbn [insertSorted].
  - cbn. destruct (undated x); reflexivity.
  - cbn [undatedLast] in Hl. apply andb_true_iff in Hl as [Hy Hr].
    destruct (compareDue x y <=? 0) eqn:E.
    + cbn [undatedLast]. rewrite Hy, Hr.
      destruct (undated x) eqn:Hx; [|reflexivity].
      rewrite (compareDue_undated_left x y Hx) in E.
      destruct (undated y) eqn:Uy; [|discriminate].
      cbn [forallb]. rewrite Uy, Hy. reflexivity.
    + pose proof (compareDue_positive_dated x y E) as Uy.
      cbn [undatedLast]. rewrite Uy, (IH Hr). reflexivity.
Qed.

(** X10: when every due date that is present parses, the sort of the results
    loses and repeats nothing, leaves no assignment without due date in front
    of one that has a due date, and keeps the assignments without due date in
    the order in which they were met.  The order is then the only one a
    stable sort can return: every arrangement of the results that is
    ascending by due date and keeps the results of equal due date in their
    original order is the result of the sort. *)
Theorem sortResults_undated_last (allResults : list AssignmentWithCourse) :
  Forall (fun a => dueParses a = true) allResults ->
  Permutation allResults (sortResults allResults)
  /\ List.length (sortResults allResults) = List.length allResults
  /\ undatedLast (sortResults allResults) = true
  /\ filter undated (sortResults allResults) = filter undated allResults
  /\ (forall sorted : list AssignmentWithCourse,
        StronglySorted (fun a b => leDue (dueKey a) (dueKey b) = true) sorted ->
        (forall k : option Z,
           filter (fun a => eqK leDue (dueKey a) k) sorted
           = filter (fun a => eqK leDue (dueKey a) k) allResults) ->
        sorted = sortResults allResults).
Proof.
  intros Hg. unfold sortResults. split; [apply sort_perm|]. split; [|split; [|split]].
  - symmetry. apply Permutation_length, sort_perm.
  - clear Hg. induction allResults as [|x r IH]; [reflexivity|].
    cbn [sort]. now apply insertSorted_undatedLast.
  - clear Hg. induction allResults as [|x r IH]; [reflexivity|].
    cbn [sort]. rewrite insertSorted_undated_filter. cbn [filter]. now rewrite IH.
  - intros sorted Hs Hf.
    apply (stable_sort_unique _ _ dueKey leDue leDue_total sorted _ Hs).
    + exact (sort_sorted _ _ compareDue dueKey leDue _
               leDue_total leDue_trans compareDue_key _ Hg).
    + intros k. rewrite Hf. symmetry.
      apply (sort_stable _ _ compareDue dueKey leDue _ leDue_trans compareDue_key k _ Hg).
Qed.

(** X11: the comparator of the sort is antisymmetric, and calls an
    assignment equal to itself: exchanging the two arguments changes the sign
    of the result.  (It is not transitive: an unparseable due date compares
    equal to every date.) *)
Theorem compareDue_antisymmetric (a b : AssignmentWithCourse) :
  compareDue a b = - compareDue b a /\ compareDue a a = 0.
Proof.
  assert (Hsub : forall x y, tv_sub x y = - tv_sub y x).
  { intros [|x] [|y]; cbn [tv_sub]; lia. }
  unfold compareDue. split.
  - destruct (truthy (CanvasAssignment.due_at (assignment a))),
             (truthy (CanvasAssignment.due_at (assignment b)));
      cbn [negb andb]; try reflexivity.
    destruct (parseDate (CanvasAssignment.due_at (assignment a))) as [da|],
             (parseDate (CanvasAssignment.due_at (assignment b))) as [db|];
      try reflexivity.
    apply Hsub.
  - destruct (truthy (CanvasAssignment.due_at (assignment a)));
      cbn [negb andb]; try reflexivity.
    destruct (parseDate (CanvasAssignment.due_at (assignment a))) as [da|];
      try reflexivity.
    destruct (getTime da); cbn [tv_sub]; lia.
Qed.

End SortProperties.

(* ===================================================================== *)
(** * Further properties: the search                                      *)
(* ===================================================================== *)

Lemma noOuterWhiteSpace_trim (s : jsstring) :
  noOuterWhiteSpace s = true -> trim s = s.
Proof.
  unfold noOuterWhiteSpace. intros H. apply andb_true_iff in H as [Hh Hl].
  apply negb_true_iff in Hh, Hl.
  assert (Hdrop : forall t, startsWithWhiteSpace t = false -> dropWhile isWhiteSpace t = t).
  { intros [|c t] Ht; [reflexivity|]. simpl in *. now rewrite Ht. }
  unfold trim, trimStart, trimEnd. rewrite (Hdrop s Hh), (Hdrop (rev s) Hl).
  apply rev_involutive.
Qed.

Lemma trim_idempotent (s : jsstring) : trim (trim s) = trim s.
Proof. apply noOuterWhiteSpace_trim, trim_noOuterWhiteSpace. Qed.

Lemma paramsToString_isEmpty {P : Platform} (params : URLSearchParams) :
  isEmpty (paramsToString params) = isEmpty params.
Proof.
  unfold paramsToString. destruct params as [|[k v] r]; [reflexivity|].
  cbn [map fst snd isEmpty].
  assert (Hx : forall rest, isEmpty ((formEncode k ++ js "=" ++ formEncode v) ++ rest) = false).
  { intros rest. destruct (formEncode k); reflexivity. }
  destruct (map _ r) as [|y t]; cbn [join].
  - rewrite <- (app_nil_r (formEncode k ++ js "=" ++ formEncode v)). apply Hx.
  - apply Hx.
Qed.

Section SearchProperties.
Context {P : Platform}.
Variable w : World.

Lemma isDateInRange_no_bounds (date before after : option jsstring) :
  truthy before = false -> truthy after = false ->
  isDateInRange date before after = true.
Proof.
  intros Hb Ha. unfold isDateInRange. rewrite Hb, Ha. cbn [negb].
  destruct (negb (truthy date)); [reflexivity|].
  destruct (parseDate date); reflexivity.
Qed.

(** The parameters, when they are built, hold the bucket exactly when one of
    the two bounds is given without the other, and building them writes
    nothing to the log. *)
Lemma buildParams_bucket (dueBefore dueAfter : option jsstring)
    (l : list jsstring) (params : URLSearchParams) :
  buildParams dueBefore dueAfter = (l, inr params) ->
  l = []
  /\ paramsHas params (js "bucket")
     = (truthy dueAfter && negb (truthy dueBefore))
       || (truthy dueBefore && negb (truthy dueAfter)).
Proof.
  unfold buildParams, toISOStringJs, bind, ret, throw.
  destruct (truthy dueAfter), (truthy dueBefore); cbn [andb negb orb app];
    repeat match goal with
           | |- context [match parseDate ?x with _ => _ end] => destruct (parseDate x)
           end;
    repeat match goal with
           | |- context [match getTime ?x with _ => _ end] => destruct (getTime x)
           end;
    cbn [app]; intros H; inversion H; subst; split; reflexivity.
Qed.

(** X12: the second, local date filter only ever removes an assignment when
    both bounds are given.  With a single bound the bucket parameter is sent
    and every assignment the API returns is kept, whatever its due date;
    without bounds nothing is checked; with both bounds the filter is
    [isDateInRange]. *)
Theorem dateFilter_needs_both_bounds (dueBefore dueAfter : option jsstring)
    (l : list jsstring) (params : URLSearchParams) (a : CanvasAssignment.t) :
  buildParams dueBefore dueAfter = (l, inr params) ->
  dateFilter dueBefore dueAfter params a
  = if truthy dueBefore && truthy dueAfter
    then isDateInRange (CanvasAssignment.due_at a) dueBefore dueAfter
    else true.
Proof.
  intros Hp. destruct (buildParams_bucket _ _ _ _ Hp) as [_ Hb].
  unfold dateFilter. rewrite Hb.
  destruct (truthy dueBefore) eqn:Tb, (truthy dueAfter) eqn:Ta; cbn [andb negb orb];
    try reflexivity.
  now apply isDateInRange_no_bounds.
Qed.

(** X13: the parameters are appended to the request URL exactly when there
    is one; without date bounds none is built and the URL of a course is the
    fixed one. *)
Theorem assignmentsUrlFor_parameters (dueBefore dueAfter : option jsstring)
    (course : CanvasCourse.t) (params : URLSearchParams) :
  let base := js "/courses/" ++ showZ (CanvasCourse.id course)
              ++ js "/assignments?per_page=100&order_by=due_at&include[]=submission" in
  assignmentsUrlFor course params
  = (if isEmpty params then base else base ++ js "&" ++ paramsToString params)
  /\ (truthy dueBefore = false -> truthy dueAfter = false ->
      buildParams dueBefore dueAfter = ([], inr [])
      /\ assignmentsUrlFor course [] = base).
Proof.
  intros base. split.
  - unfold assignmentsUrlFor. cbv zeta. rewrite paramsToString_isEmpty. reflexivity.
  - intros Hb Ha. unfold buildParams. rewrite Hb, Ha. split; reflexivity.
Qed.

(** X14: the text filter is an OR over the terms: a query whose terms
    include those of another query retains every assignment the other
    retains. *)
Theorem matchesQuery_monotone (query query' : jsstring) (a : CanvasAssignment.t) :
  (forall term, In term (searchTerms query) -> In term (searchTerms query')) ->
  matchesQuery query a = true -> matchesQuery query' a = true.
Proof.
  intros Hsub. rewrite !matchesQuery_anyTermOccurs. unfold anyTermOccurs.
  rewrite !existsb_exists. intros [term [Hin Hm]]. exists term. auto.
Qed.

(** X15: the handler sees the query only through its trimmed form: white
    space around the query changes neither the result nor the log, and an
    absent query is the empty query. *)
Theorem search_assignments_trims_query (args : SearchArgs.t) (query : jsstring) :
  search_assignments w (withQuery args (Some query))
  = search_assignments w (withQuery args (Some (trim query)))
  /\ search_assignments w (withQuery args None)
     = search_assignments w (withQuery args (Some [])).
Proof.
  split; [|reflexivity].
  unfold search_assignments, searchAll. cbv zeta.
  change (resolveCourses w (withQuery args (Some query)))
    with (resolveCourses w args).
  change (resolveCourses w (withQuery args (Some (trim query))))
    with (resolveCourses w args).
  cbn [withQuery SearchArgs.query SearchArgs.dueBefore SearchArgs.dueAfter normalizeQuery].
  rewrite trim_idempotent. reflexivity.
Qed.

End SearchProperties.

Section SearchOutcome.
Context {P : Platform}.
Variable w : World.

(** [setHours] to a time of the day keeps a date valid as long as the date
    is not within days of the end of the range of time values. *)
Lemma setHours_valid (d : Date) (tv hour min sec ms : Z) :
  getTime d = Ms tv ->
  Z.abs tv <= 8000000000000000 ->
  0 <= MakeTime hour min sec ms < msPerDay ->
  exists u, getTime (setHours d hour min sec ms) = Ms u.
Proof.
  intros Hd Htv Ht. unfold setHours. rewrite Hd. cbn [getTime].
  unfold TimeClip, UTC, MakeDate, Day, LocalTime.
  pose proof (LocalTZA_range tv true) as H1.
  set (t := tv + LocalTZA tv true) in *.
  set (date := t / msPerDay * msPerDay + MakeTime hour min sec ms) in *.
  pose proof (LocalTZA_range date false) as H2.
  assert (Hdate : t - msPerDay < date < t + msPerDay).
  { unfold date, msPerDay in *. Z.div_mod_to_equations. lia. }
  destruct (Z.gtb_spec (Z.abs (date - LocalTZA date false)) 8640000000000000)
    as [Hgt|Hle]; [|eexists; reflexivity].
  unfold t, msPerDay in *. lia.
Qed.

(** X16: with bounds in the documented form YYYY-MM-DD (or absent), building
    the request parameters never throws and writes nothing to the log; a
    course can then fail only through its request. *)
Theorem buildParams_bare_dates_succeed (dueBefore dueAfter : option jsstring) :
  truthy dueBefore = false \/ isBareDate (orElse dueBefore []) = true ->
  truthy dueAfter = false \/ isBareDate (orElse dueAfter []) = true ->
  exists params, buildParams dueBefore dueAfter = ([], inr params).
Proof.
  assert (Hbare : forall (s : option jsstring) hour min sec ms,
             truthy s = true -> isBareDate (orElse s []) = true ->
             0 <= MakeTime hour min sec ms < msPerDay ->
             exists dt u, parseDate s = Some dt
                          /\ getTime (setHours dt hour min sec ms) = Ms u).
  { intros [[|c r]|] hour min sec ms Hs Hb Ht; try discriminate.
    destruct (parseDate_bare_date_bound (c :: r) Hb) as [t [Hp Hbound]].
    destruct (setHours_valid {| getTime := Ms t |} t hour min sec ms eq_refl
                ltac:(lia) Ht) as [u Hu].
    eexists. exists u. split; [exact Hp|exact Hu]. }
  assert (Hend : 0 <= MakeTime 23 59 59 999 < msPerDay) by (vm_compute; split; congruence).
  assert (Hstart : 0 <= MakeTime 0 0 0 0 < msPerDay) by (vm_compute; split; congruence).
  intros Hb Ha. unfold buildParams, toISOStringJs, bind, ret, throw.
  destruct (truthy dueAfter) eqn:Ta.
  - destruct Ha as [Ha|Ha]; [discriminate|].
    destruct (Hbare dueAfter 0 0 0 0 Ta Ha Hstart) as (da & ua & Hpa & Hua).
    rewrite Hpa, Hua.
    destruct (truthy dueBefore) eqn:Tb.
    + destruct Hb as [Hb|Hb]; [discriminate|].
      destruct (Hbare dueBefore 23 59 59 999 Tb Hb Hend) as (db & ub & Hpb & Hub).
      cbn [andb negb app]. rewrite Hpb, Hub. eexists. reflexivity.
    + cbn [andb negb app]. eexists. reflexivity.
  - destruct (truthy dueBefore) eqn:Tb.
    + destruct Hb as [Hb|Hb]; [discriminate|].
      destruct (Hbare dueBefore 23 59 59 999 Tb Hb Hend) as (db & ub & Hpb & Hub).
      cbn [andb negb app]. rewrite Hpb, Hub. eexists. reflexivity.
    + cbn [andb negb app]. eexists. reflexivity.
Qed.

(** X17: once the courses are resolved and there is one, the handler answers
    with a result that is not an error: "No assignments found..." exactly
    when no course contributed a match, and otherwise "Found n assignments"
    where n counts the matches of all the courses that answered, followed by
    one entry per match.  The entries list the matches in the order the sort
    leaves them in: a permutation of the matches, which is the stable
    ascending order of the due dates when every due date that is present
    parses. *)
Theorem search_assignments_reports_all_matches
    (args : SearchArgs.t) (courses : list CanvasCourse.t) :
  outcomeOf (resolveCourses w args) = inr courses ->
  isEmpty courses = false ->
  let normalizedQuery := normalizeQuery (SearchArgs.query args) in
  let isWildcard := isWildcardQuery normalizedQuery in
  let dueBefore := SearchArgs.dueBefore args in
  let dueAfter := SearchArgs.dueAfter args in
  let matches :=
    flat_map (courseMatches w isWildcard normalizedQuery dueBefore dueAfter) courses in
  exists listed : list AssignmentWithCourse,
    Permutation matches listed
    /\ (Forall (fun a => dueParses a = true) matches -> listed = sortResults matches)
    /\ outcomeOf (search_assignments w args)
       = inr (textResult
                (if isEmpty matches then
                   js "No assignments found" ++ queryText isWildcard normalizedQuery
                   ++ dateRangeText dueBefore dueAfter ++ js "."
                 else
                   js "Found " ++ showZ (lengthZ matches) ++ js " assignments"
                   ++ queryText isWildcard normalizedQuery
                   ++ dateRangeText dueBefore dueAfter ++ js ":" ++ [LF; LF]
                   ++ join [LF; LF] (map resultEntry listed))).
Proof.
  intros Hc Hne normalizedQuery isWildcard dueBefore dueAfter matches.
  assert (Hperm : Permutation matches (sortResults matches))
    by (unfold sortResults; apply sort_perm).
  assert (Hlen : List.length (sortResults matches) = List.length matches)
    by (symmetry; apply Permutation_length, Hperm).
  assert (Hemp : isEmpty (sortResults matches) = isEmpty matches).
  { destruct (sortResults matches), matches; try reflexivity; discriminate. }
  exists (sortResults matches). split; [exact Hperm|]. split; [reflexivity|].
  unfold search_assignments. cbv zeta.
  destruct (resolveCourses w args) as [l r]. unfold outcomeOf in Hc. cbn [snd] in Hc.
  subst r. unfold tryCatch, bind. rewrite Hne.
  pose proof (searchAll_returns w args courses) as Hs.
  destruct (searchAll w args courses) as [l2 r2].
  unfold outcomeOf in Hs. cbn [snd] in Hs. subst r2.
  fold normalizedQuery isWildcard dueBefore dueAfter matches.
  rewrite Hemp. unfold lengthZ. rewrite Hlen.
  destruct (isEmpty matches); reflexivity.
Qed.

End SearchOutcome.

(** X12 on the reference platform: with only [dueBefore] = 2024-03-01, an
    assignment due at the end of the year passes the local filter. *)
Lemma dateFilter_needs_both_bounds_witness :
  let dueBefore := Some (js "2024-03-01") in
  let params := [ (js "bucket", js "past");
                  (js "due_before", js "2024-03-01T23:59:59.999Z") ] in
  @dateFilter Reference.platform dueBefore None params
     (sampleAssignment 1 (js "Essay") (Some (js "2024-12-31T12:00:00Z")))
  = true.
Proof.
  apply (@dateFilter_needs_both_bounds Reference.platform
           (Some (js "2024-03-01")) None []).
  vm_compute. reflexivity.
Defined.

(** X16 on the reference platform, for the bounds 2024-03-31 and
    2024-03-01. *)
Lemma buildParams_bare_dates_succeed_witness :
  exists params,
    @buildParams Reference.platform (Some (js "2024-03-31")) (Some (js "2024-03-01"))
    = ([], inr params).
Proof.
  apply (@buildParams_bare_dates_succeed Reference.platform); right; reflexivity.
Defined.

(** X14 on the reference platform: the query "essay quiz" retains what the
    query "essay" retains. *)
Lemma matchesQuery_monotone_witness :
  @matchesQuery Reference.platform (js "essay quiz")
     (sampleAssignment 1 (js "Essay on Darwin") None) = true.
Proof.
  apply (@matchesQuery_monotone Reference.platform (js "essay") (js "essay quiz")).
  - vm_compute. intros term [H|[]]. left. exact H.
  - vm_compute. reflexivity.
Defined.

(** X17 on the sample world: three matches in course 1, none from course 2,
    whose request fails. *)
Lemma search_assignments_reports_all_matches_witness :
  let matches :=
    flat_map (@courseMatches Reference.platform sampleWorld true [] None None)
             sampleCourses in
  exists listed : list AssignmentWithCourse,
    Permutation matches listed
    /\ (Forall (fun a => @dueParses Reference.platform a = true) matches ->
        listed = @sortResults Reference.platform matches)
    /\ outcomeOf (@search_assignments Reference.platform sampleWorld searchEverything)
       = inr (textResult
                (if isEmpty matches then
                   js "No assignments found" ++ queryText true []
                   ++ dateRangeText None None ++ js "."
                 else
                   js "Found " ++ showZ (lengthZ matches) ++ js " assignments"
                   ++ queryText true [] ++ dateRangeText None None ++ js ":" ++ [LF; LF]
                   ++ join [LF; LF] (map (@resultEntry Reference.platform) listed))).
Proof.
  apply (@search_assignments_reports_all_matches Reference.platform sampleWorld
           searchEverything sampleCourses); reflexivity.
Defined.

(** X10 on the reference platform, for the due dates 2024-03-01, none,
    2024-01-01, none. *)
Lemma sortResults_undated_last_witness :
  let results :=
    [ sampleResult 1 (js "Essay") (Some (js "2024-03-01"));
      sampleResult 2 (js "Reading") None;
      sampleResult 3 (js "Quiz") (Some (js "2024-01-01"));
      sampleResult 4 (js "Project") None ] in
  undatedLast (@sortResults Reference.platform results) = true
  /\ filter undated (@sortResults Reference.platform results)
     = [sampleResult 2 (js "Reading") None; sampleResult 4 (js "Project") None].
Proof.
  intros results.
  destruct (@sortResults_undated_last Reference.platform results
              ltac:(repeat constructor)) as (_ & _ & Hlast & Hkeep & _).
  split; [exact Hlast|]. rewrite Hkeep. reflexivity.
Defined.

(* ===================================================================== *)
(** * Further properties: links and the description of a report           *)
(* ===================================================================== *)

(** X18: [extractLinks] walks the document in order and leaves no anchor
    out, with or without [href]: the links of two runs of nodes are those of
    the first followed by those of the second; an element contributes itself,
    if it is an anchor (its text flattened, a missing [href] read as the
    empty string), and then the links below it; text contributes none. *)
Theorem linksOf_document_order
    (before after : list Node) (tag : jsstring)
    (attrs : list (jsstring * jsstring)) (childNodes : list Node) (data : jsstring) :
  linksOf {| body := before ++ after |}
  = linksOf {| body := before |} ++ linksOf {| body := after |}
  /\ linksOf {| body := [Element tag attrs childNodes] |}
     = (if tagIs tag "a"
        then [ {| text := flat_map descendantText childNodes;
                  href := orElse (getAttribute attrs (js "href")) [] |} ]
        else [])
       ++ linksOf {| body := childNodes |}
  /\ linksOf {| body := [Text data] |} = []
  /\ List.length (linksOf {| body := before |})
     = List.length (flat_map anchorsOf before).
Proof.
  unfold linksOf. cbn [body]. split; [|split; [|split]].
  - now rewrite flat_map_app, map_app.
  - cbn [flat_map anchorsOf]. rewrite app_nil_r, map_app.
    destruct (tagIs tag "a"); reflexivity.
  - reflexivity.
  - apply length_map.
Qed.

Section ReportProperties.
Context {P : Platform}.

(** X19: an assignment whose description is null or empty is reported, in
    each of the three formats and whatever the parser, with the line "No
    description available", and no links section is added to the lines of
    the report. *)
Theorem describe_without_description (a : CanvasAssignment.t) (formatType : FormatType)
    (details : list jsstring) :
  truthy (CanvasAssignment.description a) = false ->
  describe a formatType = js "No description available"
  /\ assignmentLinks a = []
  /\ pushLinks (assignmentLinks a) details = details.
Proof.
  intros H. unfold assignmentLinks. rewrite H. split; [|split; reflexivity].
  unfold describe, htmlToPlainText. rewrite H.
  destruct formatType; [|reflexivity|reflexivity].
  destruct (CanvasAssignment.description a) as [[|c r]|]; try reflexivity; discriminate.
Qed.

End ReportProperties.

Lemma describe_without_description_witness :
  @describe Reference.platform (sampleAssignment 1 (js "Essay") None) Plain
  = js "No description available"
  /\ @assignmentLinks Reference.platform (sampleAssignment 1 (js "Essay") None) = []
  /\ pushLinks (@assignmentLinks Reference.platform (sampleAssignment 1 (js "Essay") None))
       [js "# Essay"]
     = [js "# Essay"].
Proof.
  apply (@describe_without_description Reference.platform). reflexivity.
Defined.

(* ===================================================================== *)
(** * Further properties: the course lookup and the display of dates      *)
(* ===================================================================== *)

Section CourseLookup.
Context {P : Platform}.
Variable w : World.

(** X20: with a course id given, only that course is looked up: the flag
    [includeCompleted] has no effect on the answer, the lookup yields exactly
    one course when it succeeds, and the answer is never "No courses found.".
    A course id that is zero or the empty string is read as no course id: all
    the courses of the requested state are searched. *)
Theorem resolveCourses_course_id (args : SearchArgs.t) (includeCompleted : bool) :
  (idTruthy (SearchArgs.courseId args) = true ->
     search_assignments w (withIncludeCompleted args includeCompleted)
     = search_assignments w args
     /\ (forall courses, outcomeOf (resolveCourses w args) = inr courses ->
           List.length courses = 1%nat)
     /\ outcomeOf (search_assignments w args) <> inr (textResult (js "No courses found.")))
  /\ (idTruthy (SearchArgs.courseId args) = false ->
     search_assignments w args = search_assignments w (withCourseId args None)).
Proof.
  split.
  - intros Hid. split; [|split].
    + unfold search_assignments, searchAll, resolveCourses. cbv zeta.
      cbn [withIncludeCompleted SearchArgs.courseId SearchArgs.query
           SearchArgs.dueBefore SearchArgs.dueAfter].
      rewrite Hid. reflexivity.
    + intros courses. unfold resolveCourses. rewrite Hid.
      destruct (SearchArgs.courseId args) as [cid|]; [|discriminate Hid].
      unfold bind, ret, outcomeOf.
      destruct (canvasApiRequest w (fetchCourse w) _) as [l [e|course]]; cbn [snd].
      * discriminate.
      * intros H. inversion H. reflexivity.
    + unfold search_assignments. cbv zeta. unfold resolveCourses. rewrite Hid.
      destruct (SearchArgs.courseId args) as [cid|]; [|discriminate Hid].
      unfold tryCatch, bind, ret, outcomeOf.
      destruct (canvasApiRequest w (fetchCourse w) _) as [l [e|course]]; cbn [fst snd].
      * intros H. inversion H.
      * cbn [isEmpty].
        pose proof (searchAll_returns w args [course]) as Hs.
        destruct (searchAll w args [course]) as [l2 r2].
        unfold outcomeOf in Hs. cbn [snd] in Hs. subst r2. cbn [fst snd app].
        destruct (isEmpty _); cbn [fst snd]; intros H; inversion H.
  - intros Hid. unfold search_assignments, searchAll, resolveCourses. cbv zeta.
    cbn [withCourseId SearchArgs.courseId SearchArgs.query SearchArgs.includeCompleted
         SearchArgs.dueBefore SearchArgs.dueAfter idTruthy].
    rewrite Hid. reflexivity.
Qed.

End CourseLookup.

Section DateDisplay.
Context {P : Platform}.

(** X21: a due date that [Date.parse] rejects is displayed as "Invalid
    date".  If it is not of the form YYYY-MM-DD, [parseDate] rejects it too,
    and the assignment passes every date filter.  If it is of that form (a
    month 13, a day 45), [parseDate] still makes a date of it: the assignment
    is listed with "Invalid date" and yet filtered and sorted by a date. *)
Theorem formatDate_invalid_date (s : jsstring) (format : LocaleFormat)
    (before after : option jsstring) :
  truthy (Some s) = true ->
  Date_parse s = NaN ->
  formatDate (Some s) format = js "Invalid date"
  /\ (isBareDate s = false ->
      parseDate (Some s) = None /\ isDateInRange (Some s) before after = true)
  /\ (isBareDate s = true ->
      exists t, parseDate (Some s) = Some {| getTime := Ms t |}).
Proof.
  intros Ht Hn.
  assert (Ho : orElse (Some s) [] = s) by (destruct s; [discriminate Ht|reflexivity]).
  split; [|split].
  - unfold formatDate, Date_of_string. rewrite Ht, Ho.
    cbn [negb getTime]. rewrite Hn. reflexivity.
  - intros Hb.
    assert (Hp : parseDate (Some s) = None).
    { unfold parseDate. rewrite Ht, Ho. cbn [negb]. rewrite Hb.
      unfold validOrNull, Date_of_string. cbn [getTime]. rewrite Hn. reflexivity. }
    split; [exact Hp|].
    unfold isDateInRange. rewrite Ht, Hp. reflexivity.
  - intros Hb. destruct (parseDate_bare_date_bound s Hb) as [t [Hp _]]. now exists t.
Qed.

End DateDisplay.

(** X21 on the reference platform: 2024-13-45 is displayed as "Invalid date"
    and parsed as a date. *)
Lemma formatDate_invalid_date_witness :
  @formatDate Reference.platform (Some (js "2024-13-45")) FullFormat = js "Invalid date"
  /\ exists t, @parseDate Reference.platform (Some (js "2024-13-45"))
               = Some {| getTime := Ms t |}.
Proof.
  destruct (@formatDate_invalid_date Reference.platform (js "2024-13-45") FullFormat
              None None eq_refl eq_refl) as (Hshow & _ & Hparse).
  split; [exact Hshow|]. apply Hparse. reflexivity.
Defined.
